(** * Verification of the eol-check dependency lifecycle resolution engine

    Shallow embedding of
    - [src/eol_check/utils/version.py]            (version strings)
    - [src/end_of_life_checker/utils/cache.py]    (TTL file cache)
    - [src/end_of_life_checker/api/endoflife_client.py] (catalog client)
    - [src/eol_check/core.py]                     (per-dependency check and summary)

    [core.py] imports its client and cache as [eol_check.api.endoflife_client]
    and [eol_check.utils.cache]; they are embedded from the
    [end_of_life_checker] sources above, whose client in turn imports
    [normalize_version] from the version module listed first.

    Python values that cross the JSON boundary (catalog data, cache files)
    are modelled by [json]; Python's [None] is [JNull].  Strings are ASCII
    [string]s; timestamps are integers (seconds). *)

From stdpp Require Import base gmap strings list.
From Stdlib Require Import ZArith String Ascii DecimalString Lia.
From Stdlib Require DecimalN DecimalPos.

Open Scope string_scope.
Local Set Warnings "-register-all".

(* ------------------------------------------------------------------ *)
(** ** JSON values and the Python operations applied to them *)

Inductive json : Type :=
| JNull
| JBool (b : bool)
| JNum (z : Z)
| JStr (s : string)
| JList (l : list json)
| JObj (o : list (string * json)).

(** Python exceptions raised by the modelled code. *)
Inductive PyExc : Type :=
| NoCachedData (endpoint : string)   (* the ValueError of _get_with_cache *)
| NetworkError (endpoint : string)   (* requests / raise_for_status *)
| TypeError
| ValueError
| KeyError
| AttributeError
| OverflowError
| OSError.

(** [d[k]] / [d.get(k)] on a dict decoded by json.load (distinct keys). *)
Definition obj_get (k : string) (o : list (string * json)) : option json :=
  match List.find (fun kv => String.eqb (fst kv) k) o with
  | Some (_, v) => Some v
  | None => None
  end.

(** Python truthiness [bool(x)]. *)
Definition truthy (j : json) : bool :=
  match j with
  | JNull => false
  | JBool b => b
  | JNum z => negb (Z.eqb z 0)
  | JStr s => negb (String.eqb s "")
  | JList l => negb (Nat.eqb (List.length l) 0)
  | JObj o => negb (Nat.eqb (List.length o) 0)
  end.

(** Substring test [a in s] on strings. *)
Fixpoint substring_in (a s : string) : bool :=
  if String.prefix a s then true
  else match s with
       | EmptyString => false
       | String _ s' => substring_in a s'
       end.

Definition is_jstr (k : string) (j : json) : bool :=
  match j with JStr s => String.eqb s k | _ => false end.

(** [k in x] for a string [k]: dict keys, list elements, substrings;
    TypeError for numbers, booleans and None. *)
Definition py_contains (k : string) (x : json) : PyExc + bool :=
  match x with
  | JObj o => inr (match obj_get k o with Some _ => true | None => false end)
  | JList l => inr (List.existsb (is_jstr k) l)
  | JStr s => inr (substring_in k s)
  | _ => inl TypeError
  end.

(** [x[k]] for a string [k]. *)
Definition py_index (k : string) (x : json) : PyExc + json :=
  match x with
  | JObj o => match obj_get k o with Some v => inr v | None => inl KeyError end
  | _ => inl TypeError
  end.

(** [x.get(k)]: only dicts have [get]. *)
Definition py_dict_get (k : string) (x : json) : PyExc + json :=
  match x with
  | JObj o => inr (match obj_get k o with Some v => v | None => JNull end)
  | _ => inl AttributeError
  end.

Definition str_of_ascii (c : ascii) : string := String c EmptyString.

Fixpoint chars (s : string) : list json :=
  match s with
  | EmptyString => []
  | String c s' => JStr (str_of_ascii c) :: chars s'
  end.

(** [for x in v]: lists, dict keys, characters; TypeError otherwise. *)
Definition py_iter (v : json) : PyExc + list json :=
  match v with
  | JList l => inr l
  | JObj o => inr (map (fun kv => JStr (fst kv)) o)
  | JStr s => inr (chars s)
  | _ => inl TypeError
  end.

(* ------------------------------------------------------------------ *)
(** ** Strings *)

Definition is_digit (c : ascii) : bool :=
  let n := nat_of_ascii c in (48 <=? n)%nat && (n <=? 57)%nat.

Definition digit_val (c : ascii) : N := N.of_nat (nat_of_ascii c - 48).

(** [re.findall(r'\d+', s)]: the maximal runs of digits, left to right.
    [cur] is the run being read, reversed. *)
Fixpoint digit_runs_aux (s : string) (cur : list ascii) : list (list ascii) :=
  match s with
  | EmptyString => match cur with [] => [] | _ => [rev cur] end
  | String c s' =>
      if is_digit c then digit_runs_aux s' (c :: cur)
      else match cur with
           | [] => digit_runs_aux s' []
           | _ => rev cur :: digit_runs_aux s' []
           end
  end.

Definition findall_digits (s : string) : list (list ascii) := digit_runs_aux s [].

(** [int(run)] *)
Definition int_of_digits (ds : list ascii) : N :=
  fold_left (fun acc c => (10 * acc + digit_val c)%N) ds 0%N.

(** [str(n)] *)
Definition str_of_N (n : N) : string := NilEmpty.string_of_uint (N.to_uint n).

(** version.py: [parse_version] *)
Definition parse_version (version_str : string) : list N :=
  map int_of_digits (findall_digits version_str).

(** [re.sub(r'^v', '', s)] *)
Definition strip_leading_v (s : string) : string :=
  match s with
  | String "v"%char s' => s'
  | _ => s
  end.

(** version.py: [normalize_version] *)
Definition normalize_version (version_str : string) : string :=
  String.concat "." (map str_of_N (parse_version (strip_leading_v version_str))).

(** Error propagation through Python code without a handler. *)
Definition ebind {A B} (m : PyExc + A) (k : A -> PyExc + B) : PyExc + B :=
  match m with inl e => inl e | inr a => k a end.

Notation "'let?' x ':=' m 'in' k" := (ebind m (fun x => k))
  (at level 200, x name, m at level 100, k at level 200).

(* ------------------------------------------------------------------ *)
(** ** Calendar dates and [datetime.strptime(s, "%Y-%m-%d").date()] *)

Local Open Scope Z_scope.

Record date := mkDate { year : Z; month : Z; day : Z }.

Definition is_leap (y : Z) : bool :=
  (Z.eqb (y mod 4) 0 && negb (Z.eqb (y mod 100) 0)) || Z.eqb (y mod 400) 0.

Definition days_in_month (y m : Z) : Z :=
  match m with
  | 2 => if is_leap y then 29 else 28
  | 4 | 6 | 9 | 11 => 30
  | _ => 31
  end.

Definition days_before_month (y m : Z) : Z :=
  let base := match m with
              | 1 => 0 | 2 => 31 | 3 => 59 | 4 => 90 | 5 => 120 | 6 => 151
              | 7 => 181 | 8 => 212 | 9 => 243 | 10 => 273 | 11 => 304 | _ => 334
              end in
  if (2 <? m) && is_leap y then base + 1 else base.

Definition days_before_year (y : Z) : Z :=
  let y' := y - 1 in y' * 365 + y' / 4 - y' / 100 + y' / 400.

(** [date.toordinal()]; [(d1 - d2).days] is the difference of ordinals. *)
Definition toordinal (d : date) : Z :=
  days_before_year (year d) + days_before_month (year d) (month d) + day d.

Definition days_between (d1 d2 : date) : Z := toordinal d1 - toordinal d2.

(** The range check of the [date] constructor (MINYEAR = 1, MAXYEAR = 9999). *)
Definition valid_date (d : date) : bool :=
  (1 <=? year d) && (year d <=? 9999) && (1 <=? month d) && (month d <=? 12)
  && (1 <=? day d) && (day d <=? days_in_month (year d) (month d)).

(** Regular-expression matching with backtracking: a parser returns every
    way it can match, in the order the regex engine tries them. *)
Definition parser (A : Type) := string -> list (A * string).

Definition p_char (P : ascii -> bool) : parser ascii :=
  fun s => match s with
           | String c s' => if P c then [(c, s')] else []
           | EmptyString => []
           end.

Definition p_alt {A} (p q : parser A) : parser A := fun s => (p s ++ q s)%list.

Definition p_seq {A B} (p : parser A) (k : A -> parser B) : parser B :=
  fun s => List.flat_map (fun '(a, r) => k a r) (p s).

Definition p_ret {A} (a : A) : parser A := fun s => [(a, s)].

Definition dval (c : ascii) : Z := Z.of_nat (nat_of_ascii c) - 48.

Definition in_range (lo hi : ascii) (c : ascii) : bool :=
  (nat_of_ascii lo <=? nat_of_ascii c)%nat && (nat_of_ascii c <=? nat_of_ascii hi)%nat.

Definition p_lit (c : ascii) : parser ascii := p_char (fun x => Ascii.eqb x c).

(** [(?P<Y>\d\d\d\d)] *)
Definition p_Y : parser Z :=
  p_seq (p_char is_digit) (fun a => p_seq (p_char is_digit) (fun b =>
  p_seq (p_char is_digit) (fun c => p_seq (p_char is_digit) (fun d =>
  p_ret (1000 * dval a + 100 * dval b + 10 * dval c + dval d))))).

(** [(?P<m>1[0-2]|0[1-9]|[1-9])] *)
Definition p_m : parser Z :=
  p_alt (p_seq (p_lit "1") (fun _ => p_seq (p_char (in_range "0" "2")) (fun b => p_ret (10 + dval b))))
  (p_alt (p_seq (p_lit "0") (fun _ => p_seq (p_char (in_range "1" "9")) (fun b => p_ret (dval b))))
         (p_seq (p_char (in_range "1" "9")) (fun b => p_ret (dval b)))).

(** [(?P<d>3[01]|[12]\d|0[1-9]|[1-9]| [1-9])] *)
Definition p_d : parser Z :=
  p_alt (p_seq (p_lit "3") (fun _ => p_seq (p_char (in_range "0" "1")) (fun b => p_ret (30 + dval b))))
  (p_alt (p_seq (p_char (in_range "1" "2")) (fun a => p_seq (p_char is_digit) (fun b => p_ret (10 * dval a + dval b))))
  (p_alt (p_seq (p_lit "0") (fun _ => p_seq (p_char (in_range "1" "9")) (fun b => p_ret (dval b))))
  (p_alt (p_seq (p_char (in_range "1" "9")) (fun b => p_ret (dval b)))
         (p_seq (p_lit " ") (fun _ => p_seq (p_char (in_range "1" "9")) (fun b => p_ret (dval b))))))).

(** The regex built by [_strptime] for ["%Y-%m-%d"]. *)
Definition p_ymd : parser date :=
  p_seq p_Y (fun y => p_seq (p_lit "-") (fun _ => p_seq p_m (fun m =>
  p_seq (p_lit "-") (fun _ => p_seq p_d (fun d => p_ret (mkDate y m d)))))).

(** [datetime.strptime(s, "%Y-%m-%d").date()] on a string: [re.match] takes
    the first match, leftover text is "unconverted data remains", and an
    impossible date fails in the [date] constructor; all are ValueError. *)
Definition strptime_str (s : string) : PyExc + date :=
  match p_ymd s with
  | (d, rest) :: _ =>
      if String.eqb rest "" then (if valid_date d then inr d else inl ValueError)
      else inl ValueError
  | [] => inl ValueError
  end.

(** [strptime] on an arbitrary value: a non-string argument is a TypeError. *)
Definition strptime (v : json) : PyExc + date :=
  match v with
  | JStr s => strptime_str s
  | _ => inl TypeError
  end.

(* ------------------------------------------------------------------ *)
(** ** cache.py: the TTL file cache *)

(** A cache file: unreadable or not valid JSON, or a decoded JSON value. *)
Inductive CacheFile : Type :=
| FileCorrupt
| FileJson (j : json).

(** The cache directory: file name -> content. *)
Abbreviation Store := (gmap string CacheFile).

Fixpoint str_replace_char (a b : ascii) (s : string) : string :=
  match s with
  | EmptyString => EmptyString
  | String c s' => String (if Ascii.eqb c a then b else c) (str_replace_char a b s')
  end.

Definition ends_with (suffix s : string) : bool :=
  let n := String.length s in
  let k := String.length suffix in
  (k <=? n)%nat && String.eqb (String.substring (n - k) k s) suffix.

(** [Cache._get_cache_path] (the directory prefix is dropped). *)
Definition get_cache_path (key : string) : string :=
  let filename := str_replace_char ":" "_" (str_replace_char "/" "_" key) in
  let filename := if ends_with ".json" filename
                  then String.substring 0 (String.length filename - 5) filename
                  else filename in
  filename ++ ".json".

(** The numeric view of [expires_at] used by the [<] of [Cache.get]. *)
Definition num_of_json (j : json) : option Z :=
  match j with
  | JNum z => Some z
  | JBool b => Some (if b then 1 else 0)
  | _ => None
  end.

(** [x < time.time()] for a decoded JSON value [x]: numbers and booleans
    compare, anything else is a TypeError. *)
Definition py_lt_now (x : json) (now : Z) : PyExc + bool :=
  match x with
  | JNum z => inr (z <? now)
  | JBool b => inr ((if b then 1 else 0) <? now)
  | _ => inl TypeError
  end.

(** The range of [time.ctime] on Linux (glibc, 64-bit [time_t]) in a UTC
    local time zone: [localtime] fails with EOVERFLOW (an [OSError]) when
    the year minus 1900 does not fit in an [int], that is outside the
    years -2147481748 .. 2147485547; an argument outside [time_t] is an
    [OverflowError]. *)
Definition CTIME_MIN : Z :=
  (toordinal (mkDate (-2147481748) 1 1) - toordinal (mkDate 1970 1 1)) * 86400.

Definition CTIME_MAX : Z :=
  (toordinal (mkDate 2147485548 1 1) - toordinal (mkDate 1970 1 1)) * 86400 - 1.

Definition ctime_ok (t : Z) : bool := (CTIME_MIN <=? t) && (t <=? CTIME_MAX).

(** [time.ctime(x)] for a decoded JSON value [x] (the text is not needed). *)
Definition py_ctime (x : json) : PyExc + unit :=
  match num_of_json x with
  | None => inl TypeError
  | Some t =>
      if (t <? - 2 ^ 63) || (2 ^ 63 <=? t) then inl OverflowError
      else if ctime_ok t then inr tt else inl OSError
  end.

(** The body of the [try] block of [Cache.get]; both debug messages
    evaluate [time.ctime(cache_data['expires_at'])]. *)
Definition cache_get_body (cache_data : json) (now : Z) : PyExc + json :=
  let? has := py_contains "expires_at" cache_data in
  let? expired := (if has then
                     let? e := py_index "expires_at" cache_data in py_lt_now e now
                   else inr false) in
  if expired then
    let? e := py_index "expires_at" cache_data in
    let? _ := py_ctime e in
    inr JNull
  else let? e := py_index "expires_at" cache_data in
       let? _ := py_ctime e in
       py_index "value" cache_data.

(** [Cache.get]: [JNull] is Python's [None], i.e. a miss. *)
Definition cache_get (store : Store) (now : Z) (key : string) : json :=
  match store !! get_cache_path key with
  | None => JNull
  | Some FileCorrupt => JNull
  | Some (FileJson cache_data) =>
      match cache_get_body cache_data now with
      | inl _ => JNull
      | inr v => v
      end
  end.

(** The fate of the write in [Cache.set]: [open] fails (nothing written),
    [json.dump] fails half way (a truncated, undecodable file), or success.
    All failures are swallowed. *)
Inductive WriteOutcome : Type :=
| WriteOk
| WriteOpenFailed
| WriteTorn.

(** [Cache.set]; [json.load] of what [json.dump] wrote gives [cache_data] back. *)
Definition cache_set (store : Store) (now : Z) (key : string) (value : json)
    (ttl : Z) (w : WriteOutcome) : Store :=
  let cache_path := get_cache_path key in
  let cache_data := JObj [("value", value); ("expires_at", JNum (now + ttl))] in
  match w with
  | WriteOk => <[cache_path := FileJson cache_data]> store
  | WriteOpenFailed => store
  | WriteTorn => <[cache_path := FileCorrupt]> store
  end.

(* ------------------------------------------------------------------ *)
(** ** endoflife_client.py: the catalog client *)

Definition DEFAULT_CACHE_TTL : Z := 24 * 60 * 60.

(** The resolved [self.cache_ttl] of [EndOfLifeClient.__init__]. *)
Definition client_cache_ttl (cache_ttl : option Z) : Z :=
  match cache_ttl with Some t => t | None => DEFAULT_CACHE_TTL end.

(** The client's configuration and its environment: the flags, the
    resolved TTL, the clock, the catalog server ([None]: the request or
    [raise_for_status] raises) and the fate of cache writes. *)
Record Env := mkEnv {
  env_offline : bool;
  env_force : bool;
  env_ttl : Z;
  env_now : Z;
  env_net : string -> option json;
  env_write : WriteOutcome
}.

(** Mutable state shared by all calls: the cache directory and
    [self.available_products_cache]. *)
Record ClientState := mkState {
  cs_store : Store;
  cs_memo : gmap string bool
}.

(** State passing with Python exceptions; side effects made before an
    exception are kept. *)
Definition M (A : Type) : Type := ClientState -> ClientState * (PyExc + A).

Definition mret {A} (a : A) : M A := fun st => (st, inr a).

Definition mthrow {A} (e : PyExc) : M A := fun st => (st, inl e).

Definition mbind {A B} (m : M A) (k : A -> M B) : M B :=
  fun st => match m st with
            | (st', inl e) => (st', inl e)
            | (st', inr a) => k a st'
            end.

Notation "'let!' x ':=' m 'in' k" := (mbind m (fun x => k))
  (at level 200, x name, m at level 100, k at level 200).

(** [try: m  except Exception: h] *)
Definition mcatch {A} (m : M A) (h : PyExc -> M A) : M A :=
  fun st => match m st with
            | (st', inl e) => h e st'
            | r => r
            end.

Definition lift {A} (r : PyExc + A) : M A := fun st => (st, r).

Definition set_store (s : Store) (st : ClientState) : ClientState :=
  mkState s (cs_memo st).

Definition set_memo (m : gmap string bool) (st : ClientState) : ClientState :=
  mkState (cs_store st) m.

(** [_fetch_from_api] *)
Definition fetch_from_api (env : Env) (endpoint : string) : M json :=
  match env_net env endpoint with
  | Some data => mret data
  | None => mthrow (NetworkError endpoint)
  end.

Definition strip_json_suffix (s : string) : string :=
  if ends_with ".json" s then String.substring 0 (String.length s - 5) s else s.

(** [_get_with_cache] *)
Definition get_with_cache (env : Env) (endpoint : string) : M json :=
  fun st =>
  let clean_endpoint := strip_json_suffix endpoint in
  let cache_key := "eol_api_" ++ clean_endpoint in
  let cached_data := if env_force env then JNull
                     else cache_get (cs_store st) (env_now env) cache_key in
  if negb (env_force env) && truthy cached_data then (st, inr cached_data)
  else if env_offline env then (st, inl (NoCachedData endpoint))
  else match fetch_from_api env endpoint st with
       | (st', inl e) => (st', inl e)
       | (st', inr data) =>
           (set_store (cache_set (cs_store st') (env_now env) cache_key data
                                 (env_ttl env) (env_write env)) st', inr data)
       end.

Definition ascii_lower (c : ascii) : ascii :=
  let n := nat_of_ascii c in
  if (65 <=? n)%nat && (n <=? 90)%nat then ascii_of_nat (n + 32) else c.

Fixpoint str_lower (s : string) : string :=
  match s with
  | EmptyString => EmptyString
  | String c s' => String (ascii_lower c) (str_lower s')
  end.

(** [self.product_mapping] *)
Definition product_mapping : list (string * string) :=
  [("react", "react"); ("angular", "angular"); ("vue", "vue");
   ("node", "nodejs"); ("nodejs", "nodejs");
   ("django", "django"); ("python", "python");
   ("spring", "spring"); ("spring-boot", "spring-boot"); ("java", "java");
   ("spring-boot-starter-parent", "spring-boot")].

Definition mapping_get (k : string) : option string :=
  match List.find (fun kv => String.eqb (fst kv) k) product_mapping with
  | Some (_, v) => Some v
  | None => None
  end.

(** [_get_product_name] *)
Definition get_product_name (package_name : string) : string :=
  let package_name_lower := str_lower package_name in
  match mapping_get package_name_lower with
  | Some p => p
  | None =>
      let normalized_name := str_replace_char "_" "-" package_name_lower in
      match mapping_get normalized_name with
      | Some p => p
      | None => package_name_lower
      end
  end.

(** [_is_product_available] *)
Definition is_product_available (env : Env) (product_name : string) : M bool :=
  fun st =>
  match cs_memo st !! product_name with
  | Some b => (st, inr b)
  | None =>
      let '(st', r) := get_with_cache env product_name st in
      let b := match r with inr _ => true | inl _ => false end in
      (set_memo (<[product_name := b]> (cs_memo st')) st', inr b)
  end.

(** [get_product_versions] *)
Definition get_product_versions (env : Env) (product_name : string) : M json :=
  get_with_cache env product_name.

(** [s.startswith(prefix)] with a decoded [prefix]. *)
Definition py_startswith (s : string) (prefix : json) : PyExc + bool :=
  match prefix with
  | JStr p => inr (String.prefix p s)
  | _ => inl TypeError
  end.

(** [s.split(".")[0]] *)
Fixpoint first_component (s : string) : string :=
  match s with
  | EmptyString => EmptyString
  | String c s' => if Ascii.eqb c "." then EmptyString else String c (first_component s')
  end.

(** [a.split(".")[0] == b.split(".")[0]] with a decoded [b]. *)
Definition py_same_major (a : string) (b : json) : PyExc + bool :=
  match b with
  | JStr s => inr (String.eqb (first_component a) (first_component s))
  | _ => inl AttributeError
  end.

(** The first loop of [get_eol_info]. *)
Fixpoint match_prefix (normalized_version : string) (versions : list json)
    : PyExc + option json :=
  match versions with
  | [] => inr None
  | ver_info :: rest =>
      let? has := py_contains "cycle" ver_info in
      if has then
        let? ver_cycle := py_index "cycle" ver_info in
        let? m := py_startswith normalized_version ver_cycle in
        if m then inr (Some ver_info) else match_prefix normalized_version rest
      else match_prefix normalized_version rest
  end.

(** The second loop of [get_eol_info]. *)
Fixpoint match_major (normalized_version : string) (versions : list json)
    : PyExc + option json :=
  match versions with
  | [] => inr None
  | ver_info :: rest =>
      let? has := py_contains "cycle" ver_info in
      if has then
        let? ver_cycle := py_index "cycle" ver_info in
        let? m := py_same_major normalized_version ver_cycle in
        if m then inr (Some ver_info) else match_major normalized_version rest
      else match_major normalized_version rest
  end.

(** The matching part of [get_eol_info] ([JNull] is [return None]). *)
Definition match_version (versions : json) (version : string) : PyExc + json :=
  let normalized_version := normalize_version version in
  let? vs := py_iter versions in
  let? r1 := match_prefix normalized_version vs in
  match r1 with
  | Some v => inr v
  | None =>
      let? vs2 := py_iter versions in
      let? r2 := match_major normalized_version vs2 in
      match r2 with
      | Some v => inr v
      | None => inr JNull
      end
  end.

(** [get_eol_info] *)
Definition get_eol_info (env : Env) (package_name version : string) : M json :=
  let product_name := get_product_name package_name in
  let! avail := is_product_available env product_name in
  if negb avail then mret JNull
  else mcatch (let! versions := get_product_versions env product_name in
               lift (match_version versions version))
              (fun _ => mret JNull).

(* ------------------------------------------------------------------ *)
(** ** version.py: [has_major_version_change] *)

Definition has_major_version_change (current_version recommended_version : string) : bool :=
  if String.eqb current_version "" || String.eqb recommended_version "" then false
  else match parse_version current_version, parse_version recommended_version with
       | c :: _, r :: _ => negb (N.eqb c r)
       | _, _ => false
       end.

(** The call [has_major_version_change(dep["version"], recommended_version)]
    of core.py with a decoded [recommended_version]: [re.findall] raises
    TypeError on a non-string. *)
Definition py_has_major_version_change (current_version : string) (recommended : json)
    : PyExc + bool :=
  if String.eqb current_version "" || negb (truthy recommended) then inr false
  else match recommended with
       | JStr r => inr (has_major_version_change current_version r)
       | _ => inl TypeError
       end.

(* ------------------------------------------------------------------ *)
(** ** core.py: checking one dependency *)

Record Dependency := mkDep { dep_name : string; dep_version : string }.

Inductive Status := OK | WARNING | CRITICAL | UNKNOWN | ERROR.

Inductive SummaryKey := Kcritical | Kwarning | Kok | Kunknown.

(** The three dict shapes returned by [check_dependency]. *)
Inductive Resolution :=
| ResUnknown (dep : Dependency)
| ResChecked (dep : Dependency) (status : Status) (eol_date : json)
    (days_remaining : Z) (recommended_version : json) (has_breaking_changes : bool)
| ResError (dep : Dependency) (error : PyExc).

Definition res_status (r : Resolution) : Status :=
  match r with
  | ResUnknown _ => UNKNOWN
  | ResChecked _ st _ _ _ _ => st
  | ResError _ _ => ERROR
  end.

Definition res_dep (r : Resolution) : Dependency :=
  match r with
  | ResUnknown d | ResChecked d _ _ _ _ _ | ResError d _ => d
  end.

(** One test of the [active_versions] comprehension. *)
Definition is_active (today : date) (v : json) : PyExc + bool :=
  let? e := py_dict_get "eol" v in
  match e with
  | JBool false => inr true
  | JStr _ =>
      let? e' := py_index "eol" v in
      let? d := strptime e' in
      inr (toordinal today <? toordinal d)
  | _ => inr false
  end.

Fixpoint active_versions (today : date) (vs : list json) : PyExc + list json :=
  match vs with
  | [] => inr []
  | v :: rest =>
      let? keep := is_active today v in
      let? tl := active_versions today rest in
      inr (if keep then v :: tl else tl)
  end.

(** The recommended-version block for a CRITICAL or WARNING dependency:
    the pair [(recommended_version, has_breaking_changes)] as left by the
    inner [try] (an exception keeps what was already assigned). *)
Definition recommend (env : Env) (today : date) (dep : Dependency) (eol_info : json)
    : ClientState -> ClientState * (json * bool) :=
  fun st =>
  let product_name := get_product_name (dep_name dep) in
  if String.eqb product_name "" then (st, (JNull, false))
  else match get_product_versions env product_name st with
       | (st', inl _) => (st', (JNull, false))
       | (st', inr all_versions) =>
           let r :=
             let? vs := py_iter all_versions in
             let? act := active_versions today vs in
             inr act in
           match r with
           | inl _ => (st', (JNull, false))
           | inr [] =>
               match py_dict_get "latest" eol_info with
               | inl _ => (st', (JNull, false))
               | inr rv => (st', (rv, false))
               end
           | inr (latest_active :: _) =>
               match py_dict_get "latest" latest_active with
               | inl _ => (st', (JNull, false))
               | inr rv =>
                   if truthy rv then
                     match py_has_major_version_change (dep_version dep) rv with
                     | inl _ => (st', (rv, false))
                     | inr b => (st', (rv, b))
                     end
                   else (st', (rv, false))
               end
           end
       end.

(** The classification of a dependency with an EOL entry. *)
Definition classify (days_remaining threshold_days : Z) : Status * SummaryKey :=
  if days_remaining <? 0 then (CRITICAL, Kcritical)
  else if days_remaining <? threshold_days then (WARNING, Kwarning)
  else (OK, Kok).

(** The body of the outer [try] of [check_dependency]. *)
Definition check_dependency_body (env : Env) (today : date) (threshold_days : Z)
    (dep : Dependency) : M (Resolution * SummaryKey) :=
  let! eol_info := get_eol_info env (dep_name dep) (dep_version dep) in
  let! has_eol := (if truthy eol_info then lift (py_contains "eol" eol_info)
                   else mret false) in
  if negb has_eol then mret (ResUnknown dep, Kunknown)
  else
    let! eol_raw := lift (py_index "eol" eol_info) in
    let! eol_date := lift (strptime eol_raw) in
    let days_remaining := days_between eol_date today in
    let '(status, summary_key) := classify days_remaining threshold_days in
    fun st =>
      let '(st', (recommended_version, has_breaking_changes)) :=
        match status with
        | CRITICAL | WARNING => recommend env today dep eol_info st
        | _ => (st, (JNull, false))
        end in
      (st', inr (ResChecked dep status eol_raw days_remaining
                            recommended_version has_breaking_changes, summary_key)).

(** [check_dependency]: any exception gives an ERROR entry. *)
Definition check_dependency (env : Env) (today : date) (threshold_days : Z)
    (dep : Dependency) : M (Resolution * SummaryKey) :=
  mcatch (check_dependency_body env today threshold_days dep)
         (fun e => mret (ResError dep e, Kunknown)).

(* ------------------------------------------------------------------ *)
(** ** core.py: aggregation in [check_project] *)

Record Summary := mkSummary { critical : nat; warning : nat; ok : nat; unknown : nat }.

Definition summary0 : Summary := mkSummary 0 0 0 0.

(** [results["summary"][summary_key] += 1] *)
Definition bump (s : Summary) (k : SummaryKey) : Summary :=
  match k with
  | Kcritical => mkSummary (S (critical s)) (warning s) (ok s) (unknown s)
  | Kwarning => mkSummary (critical s) (S (warning s)) (ok s) (unknown s)
  | Kok => mkSummary (critical s) (warning s) (S (ok s)) (unknown s)
  | Kunknown => mkSummary (critical s) (warning s) (ok s) (S (unknown s))
  end.

(** The final loop of [check_project] over [dep_results], in the order
    [as_completed] delivered them. *)
Definition summarize (dep_results : list (Resolution * SummaryKey)) : Summary :=
  fold_left (fun s r => bump s (snd r)) dep_results summary0.

Definition summary_total (s : Summary) : nat :=
  (critical s + warning s + ok s + unknown s)%nat.

(** One worker processing dependencies in order (a pool of size 1). *)
Fixpoint check_all (env : Env) (today : date) (threshold_days : Z)
    (deps : list Dependency) : M (list (Resolution * SummaryKey)) :=
  match deps with
  | [] => mret []
  | d :: rest =>
      let! r := check_dependency env today threshold_days d in
      let! rs := check_all env today threshold_days rest in
      mret (r :: rs)
  end.

(* ------------------------------------------------------------------ *)
(** ** version.py: [compare_versions] and [extract_major_minor] *)

(** The loop [for i in range(n)] of [compare_versions], with [n] the
    iterations left and the part lists read from the current index on: a
    missing part counts as [0]. *)
Fixpoint compare_parts (n : nat) (v1_parts v2_parts : list N) : Z :=
  match n with
  | O => 0
  | S n' =>
      let v1_part := match v1_parts with p :: _ => p | [] => 0%N end in
      let v2_part := match v2_parts with p :: _ => p | [] => 0%N end in
      if (v1_part <? v2_part)%N then -1
      else if (v2_part <? v1_part)%N then 1
      else compare_parts n' (tl v1_parts) (tl v2_parts)
  end.

(** version.py: [compare_versions] *)
Definition compare_versions (version1 version2 : string) : Z :=
  let v1_parts := parse_version version1 in
  let v2_parts := parse_version version2 in
  compare_parts (Nat.max (List.length v1_parts) (List.length v2_parts)) v1_parts v2_parts.

(** The greedy [\d+] at the start of a string: the run and the rest. *)
Fixpoint span_digits (s : string) : string * string :=
  match s with
  | EmptyString => (EmptyString, EmptyString)
  | String c s' =>
      if is_digit c then let '(d, r) := span_digits s' in (String c d, r)
      else (EmptyString, s)
  end.

(** version.py: [extract_major_minor]; [re.match(r'^(\d+\.\d+)', version)]
    needs the whole leading digit run before the dot (a shorter run is
    followed by a digit), and takes the whole run after it. *)
Definition extract_major_minor (version : string) : string :=
  let '(d1, r1) := span_digits version in
  match d1, r1 with
  | String _ _, String c r2 =>
      if Ascii.eqb c "." then
        let '(d2, _) := span_digits r2 in
        match d2 with
        | String _ _ => d1 ++ String "." d2
        | EmptyString => version
        end
      else version
  | _, _ => version
  end.

(* ------------------------------------------------------------------ *)
(** ** cache.py: [Cache.clear] *)

(** [Cache.clear]: every file whose name ends in [.json] is removed,
    unless [os.remove] fails on it ([remove_fails]), which is passed over;
    other files stay.  The directory itself is listable (it is created by
    [Cache.__init__]). *)
Definition cache_clear (store : Store) (remove_fails : string -> bool) : Store :=
  filter (fun kv : string * CacheFile =>
            ~ (ends_with ".json" kv.1 = true /\ remove_fails kv.1 = false)) store.

(** The client of an environment with another catalog server and another
    fate of cache writes, everything else unchanged. *)
Definition with_network (env : Env) (net : string -> option json) (w : WriteOutcome) : Env :=
  mkEnv (env_offline env) (env_force env) (env_ttl env) (env_now env) net w.

(* ------------------------------------------------------------------ *)
(** ** core.py: the ignore list and the run of [check_project] *)

(** [str.isspace] on an ASCII character: [\t \n \v \f \r], the separators
    [\x1c]-[\x1f] and the space. *)
Definition py_isspace (c : ascii) : bool :=
  let n := nat_of_ascii c in
  ((9 <=? n) && (n <=? 13))%nat || ((28 <=? n) && (n <=? 32))%nat.

Fixpoint py_lstrip (s : string) : string :=
  match s with
  | EmptyString => EmptyString
  | String c s' => if py_isspace c then py_lstrip s' else s
  end.

Fixpoint py_rstrip (s : string) : string :=
  match s with
  | EmptyString => EmptyString
  | String c s' =>
      let r := py_rstrip s' in
      if py_isspace c && String.eqb r "" then EmptyString else String c r
  end.

(** [s.strip()] *)
Definition py_strip (s : string) : string := py_rstrip (py_lstrip s).

(** [_load_ignore_list]: [None] when the file cannot be opened or read
    (the exception handler returns [[]]); otherwise the lines the file
    object yields, each with its newline. *)
Definition load_ignore_list (ignore_file : option (list string)) : list string :=
  match ignore_file with
  | None => []
  | Some f =>
      map py_strip (List.filter (fun line => negb (String.eqb (py_strip line) "") &&
                                             negb (String.prefix "#" line)) f)
  end.

(** [[dep for dep in all_dependencies if dep["name"] not in self.ignore_list]] *)
Definition filter_ignored (ignore_list : list string) (all_dependencies : list Dependency)
    : list Dependency :=
  List.filter (fun dep => negb (existsb (String.eqb (dep_name dep)) ignore_list))
              all_dependencies.

(** The checking part of [check_project] after parsing: the ignore filter,
    one [check_dependency] per remaining dependency (one worker, which runs
    the submitted checks in order), then the loop that appends each result
    and bumps its counter.  [as_completed] is the order in which
    [concurrent.futures.as_completed] yields the finished futures: futures
    already done when it is called come out in the iteration order of a set,
    the others as they finish. *)
Definition check_project_results
    (as_completed : list (Resolution * SummaryKey) -> list (Resolution * SummaryKey))
    (env : Env) (today : date) (threshold_days : Z)
    (ignore_list : list string) (all_dependencies : list Dependency)
    : M (list Resolution * Summary) :=
  let! checked := check_all env today threshold_days
                    (filter_ignored ignore_list all_dependencies) in
  let dep_results := as_completed checked in
  mret (map fst dep_results, summarize dep_results).

(* ------------------------------------------------------------------ *)
(** ** The reading of [normalize_version] in the amended claim C3

    Spec-side definitions, written from the claim's words rather than the
    source: runs of digits, the text between them, one leading [v], and
    a run read as a decimal integer and printed without leading zeros
    (the Standard Library's decimal strings). *)

Definition spec_all_digits (s : string) : bool := forallb is_digit (list_ascii_of_string s).
Definition spec_no_digit (s : string) : bool := negb (existsb is_digit (list_ascii_of_string s)).
Definition spec_strip_v (s : string) : string :=
  match s with String "v"%char t => t | _ => s end.
Definition spec_decimal (run : string) : string :=
  match NilEmpty.uint_of_string run with
  | Some u => NilEmpty.string_of_uint (Decimal.unorm u)
  | None => run
  end.
(** [t] is [g0], then each run [fst rg] followed by its gap [snd rg]:
    runs are non-empty and all digits, gaps have no digit, and every gap
    but the last is non-empty, so the runs are the maximal ones. *)
Definition spec_digit_runs_layout (t g0 : string) (rgs : list (string * string)) : Prop :=
  t = g0 ++ String.concat "" (map (fun rg => fst rg ++ snd rg) rgs) /\
  spec_no_digit g0 = true /\
  Forall (fun rg => fst rg <> "" /\ spec_all_digits (fst rg) = true /\ spec_no_digit (snd rg) = true) rgs /\
  Forall (fun rg => snd rg <> "") (removelast rgs).

(* ================================================================== *)
(** * Properties *)

(* ------------------------------------------------------------------ *)
(** ** Version normalization *)

Lemma digit_runs_aux_sep (s1 s2 : string) (c : ascii) (cur : list ascii) :
  is_digit c = false ->
  digit_runs_aux (s1 ++ String c s2) cur = (digit_runs_aux s1 cur ++ digit_runs_aux s2 [])%list.
Proof.
  intros Hc. revert cur.
  induction s1 as [|d s1 IH]; intros cur; simpl.
  - rewrite Hc. destruct cur; reflexivity.
  - destruct (is_digit d).
    + apply IH.
    + destruct cur; simpl; rewrite IH; reflexivity.
Qed.

Lemma parse_version_sep (s1 s2 : string) (c : ascii) :
  is_digit c = false ->
  parse_version (s1 ++ String c s2) = (parse_version s1 ++ parse_version s2)%list.
Proof.
  intros Hc. unfold parse_version, findall_digits.
  rewrite (digit_runs_aux_sep _ _ _ _ Hc). apply map_app.
Qed.

(** Claim C3 (as stated, refuted): [normalize_version "v2.7.16rc1"] is
    not ["2.7.16"]: the digit run of the [rc1] suffix is kept. *)
Lemma normalize_version_rc_suffix_kept :
  normalize_version "v2.7.16rc1" = "2.7.16.1" /\ normalize_version "v2.7.16rc1" <> "2.7.16".
Proof. split; [reflexivity | vm_compute; discriminate]. Qed.

(* ------------------------------------------------------------------ *)
(** ** The TTL cache *)













(** A TTL of [1000000000000d] (as [--cache-ttl] accepts) puts the expiry
    beyond [time.ctime]: the entry is written but reads back as a miss. *)
Lemma cache_far_expiry_is_a_miss :
  cache_get (cache_set ∅ 0 "eol_api_python" (JStr "x") 86400000000000000 WriteOk) 0
            "eol_api_python" = JNull.
Proof. reflexivity. Qed.

(* ------------------------------------------------------------------ *)
(** ** The cached fetch of the catalog client *)

(** The cache key [_get_with_cache] derives from an endpoint. *)
Definition endpoint_cache_key (endpoint : string) : string :=
  "eol_api_" ++ strip_json_suffix endpoint.

(** What the network branch of [_get_with_cache] does: fetch, then store
    the data with the configured TTL. *)
Definition fetch_and_store (env : Env) (endpoint : string) (st : ClientState)
    : ClientState * (PyExc + json) :=
  match env_net env endpoint with
  | Some data =>
      (set_store (cache_set (cs_store st) (env_now env) (endpoint_cache_key endpoint)
                            data (env_ttl env) (env_write env)) st, inr data)
  | None => (st, inl (NetworkError endpoint))
  end.

(** When the cache lookup is skipped or yields a falsy value,
    [_get_with_cache] fails offline and fetches otherwise. *)
Lemma get_with_cache_no_hit (env : Env) (endpoint : string) (st : ClientState) :
  (env_force env = true \/
   truthy (cache_get (cs_store st) (env_now env) (endpoint_cache_key endpoint)) = false) ->
  get_with_cache env endpoint st =
  if env_offline env then (st, inl (NoCachedData endpoint))
  else fetch_and_store env endpoint st.
Proof.
  intros Hmiss. unfold get_with_cache, fetch_and_store, fetch_from_api, mret, mthrow.
  unfold endpoint_cache_key in Hmiss.
  assert (Hb : negb (env_force env) &&
               truthy (if env_force env then JNull
                       else cache_get (cs_store st) (env_now env)
                              ("eol_api_" ++ strip_json_suffix endpoint)) = false).
  { destruct Hmiss as [Hf | Ht]; [rewrite Hf; reflexivity|].
    destruct (env_force env); [reflexivity | exact Ht]. }
  rewrite Hb. destruct (env_offline env); [reflexivity|].
  destruct (env_net env endpoint); reflexivity.
Qed.

Lemma get_with_cache_hit (env : Env) (endpoint : string) (st : ClientState) :
  env_force env = false ->
  truthy (cache_get (cs_store st) (env_now env) (endpoint_cache_key endpoint)) = true ->
  get_with_cache env endpoint st =
  (st, inr (cache_get (cs_store st) (env_now env) (endpoint_cache_key endpoint))).
Proof.
  intros Hf Ht. unfold get_with_cache. unfold endpoint_cache_key in Ht.
  rewrite Hf. cbv beta zeta iota. cbn [negb andb]. rewrite Ht. reflexivity.
Qed.



Definition empty_state : ClientState := mkState ∅ ∅.








(* ------------------------------------------------------------------ *)
(** ** Offline runs on an empty cache *)

(** Nothing cached on disk, and every memoised availability is [False]. *)
Definition offline_empty (st : ClientState) : Prop :=
  cs_store st = ∅ /\ forall p b, cs_memo st !! p = Some b -> b = false.

Lemma get_with_cache_offline_empty (env : Env) (endpoint : string) (st : ClientState) :
  env_offline env = true -> cs_store st = ∅ ->
  get_with_cache env endpoint st = (st, inl (NoCachedData endpoint)).
Proof.
  intros Ho Hs. rewrite get_with_cache_no_hit, Ho; [reflexivity|].
  right. rewrite Hs. reflexivity.
Qed.

Lemma is_product_available_offline_empty (env : Env) (p : string) (st : ClientState) :
  env_offline env = true -> offline_empty st ->
  exists st', is_product_available env p st = (st', inr false) /\ offline_empty st'.
Proof.
  intros Ho [Hs Hm]. unfold is_product_available.
  destruct (cs_memo st !! p) as [b|] eqn:Hp.
  - exists st. rewrite (Hm p b Hp). split; [reflexivity | split; assumption].
  - rewrite get_with_cache_offline_empty by assumption.
    eexists. split; [reflexivity|]. split; [exact Hs|].
    intros q b. simpl. rewrite lookup_insert.
    destruct (decide (p = q)); [congruence | apply Hm].
Qed.

Lemma get_eol_info_offline_empty (env : Env) (name version : string) (st : ClientState) :
  env_offline env = true -> offline_empty st ->
  exists st', get_eol_info env name version st = (st', inr JNull) /\ offline_empty st'.
Proof.
  intros Ho Hst. unfold get_eol_info, mbind.
  destruct (is_product_available_offline_empty env (get_product_name name) st Ho Hst)
    as (st' & Heq & Hst'). rewrite Heq. exists st'. split; [reflexivity | exact Hst'].
Qed.

Lemma check_dependency_offline_empty (env : Env) (today : date) (threshold_days : Z)
    (dep : Dependency) (st : ClientState) :
  env_offline env = true -> offline_empty st ->
  exists st', check_dependency env today threshold_days dep st =
              (st', inr (ResUnknown dep, Kunknown)) /\ offline_empty st'.
Proof.
  intros Ho Hst. unfold check_dependency, mcatch, check_dependency_body, mbind.
  destruct (get_eol_info_offline_empty env (dep_name dep) (dep_version dep) st Ho Hst)
    as (st' & Heq & Hst'). rewrite Heq. exists st'. split; [reflexivity | exact Hst'].
Qed.

Definition env_offline_only : Env :=
  mkEnv true false DEFAULT_CACHE_TTL 1700000000
        (fun _ => Some (JList [JObj [("cycle", JStr "3.2"); ("eol", JStr "2024-04-30")]]))
        WriteOk.

(** Claim C2 (as stated, refuted): offline on an empty cache, a
    dependency whose catalog must be fetched is not an ERROR with the
    offline error: the failed fetch inside [_is_product_available] only
    marks the product unavailable, and the dependency is UNKNOWN. *)
Lemma offline_empty_cache_gives_unknown_not_error :
  snd (check_dependency env_offline_only (mkDate 2024 1 1) 90 (mkDep "django" "3.2.1") empty_state)
  = inr (ResUnknown (mkDep "django" "3.2.1"), Kunknown) /\
  snd (check_dependency env_offline_only (mkDate 2024 1 1) 90 (mkDep "django" "3.2.1") empty_state)
  <> inr (ResError (mkDep "django" "3.2.1") (NoCachedData "django"), Kunknown).
Proof. split; [reflexivity | simpl; discriminate]. Qed.

(** Claim C2 (amended): with an empty cache and offline mode (with or
    without force-update) every dependency, in any order of processing,
    resolves to UNKNOWN with no error recorded and is counted as unknown;
    the run completes. *)
Theorem offline_empty_cache_all_unknown :
  forall (env : Env) (today : date) (threshold_days : Z)
         (deps : list Dependency) (st : ClientState),
  env_offline env = true -> cs_store st = ∅ -> cs_memo st = ∅ ->
  exists st', check_all env today threshold_days deps st =
              (st', inr (map (fun d => (ResUnknown d, Kunknown)) deps)).
Proof.
  intros env today threshold_days deps st Ho Hs Hm.
  assert (Hst : offline_empty st).
  { split; [exact Hs|]. intros p b. rewrite Hm. discriminate. }
  clear Hs Hm. revert st Hst.
  induction deps as [|d deps IH]; intros st Hst; simpl.
  - exists st. reflexivity.
  - unfold mbind.
    destruct (check_dependency_offline_empty env today threshold_days d st Ho Hst)
      as (st1 & -> & Hst1).
    destruct (IH st1 Hst1) as (st2 & ->). exists st2. reflexivity.
Qed.

Lemma offline_empty_cache_all_unknown_witness :
  exists st', check_all env_offline_only (mkDate 2024 1 1) 90
                [mkDep "django" "3.2.1"; mkDep "react" "17.0.2"] empty_state =
              (st', inr [(ResUnknown (mkDep "django" "3.2.1"), Kunknown);
                         (ResUnknown (mkDep "react" "17.0.2"), Kunknown)]).
Proof.
  apply (offline_empty_cache_all_unknown env_offline_only (mkDate 2024 1 1) 90
           [mkDep "django" "3.2.1"; mkDep "react" "17.0.2"] empty_state);
    reflexivity.
Defined.

(* ------------------------------------------------------------------ *)
(** ** Classification of one dependency *)

Definition res_days (r : Resolution) : option Z :=
  match r with
  | ResChecked _ _ _ d _ _ => Some d
  | _ => None
  end.

Lemma truthy_obj_with_key (o : list (string * json)) (k : string) (v : json) :
  obj_get k o = Some v -> truthy (JObj o) = true.
Proof. destruct o; [discriminate | reflexivity]. Qed.

(** [check_dependency] once [get_eol_info] has produced a dict with an
    [eol] key: everything up to the classification. *)
Lemma check_dependency_with_eol (env : Env) (today : date) (threshold_days : Z)
    (dep : Dependency) (st : ClientState) (o : list (string * json)) (e : json) :
  snd (get_eol_info env (dep_name dep) (dep_version dep) st) = inr (JObj o) ->
  obj_get "eol" o = Some e ->
  check_dependency env today threshold_days dep st =
  match strptime e with
  | inl err => (fst (get_eol_info env (dep_name dep) (dep_version dep) st), inr (ResError dep err, Kunknown))
  | inr eol_date =>
      let days_remaining := days_between eol_date today in
      let '(status, summary_key) := classify days_remaining threshold_days in
      let '(st', (recommended_version, has_breaking_changes)) :=
        match status with
        | CRITICAL | WARNING =>
            recommend env today dep (JObj o) (fst (get_eol_info env (dep_name dep) (dep_version dep) st))
        | _ => (fst (get_eol_info env (dep_name dep) (dep_version dep) st), (JNull, false))
        end in
      (st', inr (ResChecked dep status e days_remaining recommended_version has_breaking_changes,
                 summary_key))
  end.
Proof.
  intros Hinfo Heol. unfold check_dependency, mcatch, check_dependency_body, mbind.
  destruct (get_eol_info env (dep_name dep) (dep_version dep) st) as [st1 r] eqn:Hg.
  simpl in Hinfo |- *. subst r.
  rewrite (truthy_obj_with_key o "eol" e Heol). simpl. rewrite Heol. simpl.
  destruct (strptime e) as [err|d]; [reflexivity|].
  destruct (classify (days_between d today) threshold_days) as [status key].
  destruct status; try reflexivity;
    destruct (recommend env today dep (JObj o) st1) as [st2 [rv b]]; reflexivity.
Qed.

(** Claim C1 (code defect): a matched cycle whose [eol] is a boolean
    ([false]: still supported, [true]: unsupported) reaches
    [datetime.strptime], which raises TypeError: the dependency becomes
    ERROR (counted as unknown), not UNKNOWN. *)
Theorem eol_bool_cycle_gives_error :
  forall (env : Env) (today : date) (threshold_days : Z) (dep : Dependency)
         (st : ClientState) (o : list (string * json)) (b : bool),
  snd (get_eol_info env (dep_name dep) (dep_version dep) st) = inr (JObj o) ->
  obj_get "eol" o = Some (JBool b) ->
  check_dependency env today threshold_days dep st =
  (fst (get_eol_info env (dep_name dep) (dep_version dep) st),
   inr (ResError dep TypeError, Kunknown)).
Proof.
  intros env today threshold_days dep st o b Hinfo Heol.
  rewrite (check_dependency_with_eol env today threshold_days dep st o (JBool b) Hinfo Heol).
  reflexivity.
Qed.

Definition python_cycle_312 : list (string * json) :=
  [("cycle", JStr "3.12"); ("eol", JBool false); ("latest", JStr "3.12.1")].

Definition env_python : Env :=
  mkEnv false false DEFAULT_CACHE_TTL 1700000000
        (fun ep => if String.eqb ep "python" then Some (JList [JObj python_cycle_312]) else None)
        WriteOk.

Lemma eol_bool_cycle_gives_error_witness :
  check_dependency env_python (mkDate 2024 1 1) 90 (mkDep "python" "3.12.1") empty_state =
  (fst (get_eol_info env_python "python" "3.12.1" empty_state),
   inr (ResError (mkDep "python" "3.12.1") TypeError, Kunknown)).
Proof.
  apply (eol_bool_cycle_gives_error env_python (mkDate 2024 1 1) 90 (mkDep "python" "3.12.1")
           empty_state python_cycle_312 false); reflexivity.
Defined.

Lemma classify_cases (days_remaining threshold_days : Z) :
  let status := fst (classify days_remaining threshold_days) in
  (status = CRITICAL <-> days_remaining < 0) /\
  (status = WARNING <-> 0 <= days_remaining < threshold_days) /\
  (status = OK <-> 0 <= days_remaining /\ threshold_days <= days_remaining).
Proof.
  unfold classify. cbv zeta.
  destruct (Z.ltb_spec days_remaining 0); simpl.
  - repeat split; intros; try discriminate; lia.
  - destruct (Z.ltb_spec days_remaining threshold_days); simpl;
      repeat split; intros; try discriminate; try reflexivity; lia.
Qed.

Definition python_dated : json :=
  JList [JObj [("cycle", JStr "3.10"); ("eol", JStr "2025-01-01"); ("latest", JStr "3.10.14")];
         JObj [("cycle", JStr "3.9"); ("eol", JStr "2024-02-01"); ("latest", JStr "3.9.19")];
         JObj [("cycle", JStr "3.8"); ("eol", JStr "2023-12-01"); ("latest", JStr "3.8.20")];
         JObj [("cycle", JStr "3.7"); ("eol", JStr "2023-12-27"); ("latest", JStr "3.7.17")]].

Definition env_python_dated : Env :=
  mkEnv false false DEFAULT_CACHE_TTL 1700000000
        (fun ep => if String.eqb ep "python" then Some python_dated else None)
        WriteOk.

(** Claim C6 (as stated, refuted for a negative threshold): with
    [threshold_days = -10], an EOL five days ago gives CRITICAL although
    [days_remaining = -5 >= threshold_days], where the claim also asks for OK. *)
Lemma negative_threshold_critical_not_ok :
  exists rv b,
  snd (check_dependency env_python_dated (mkDate 2024 1 1) (-10) (mkDep "python" "3.7.2") empty_state)
  = inr (ResChecked (mkDep "python" "3.7.2") CRITICAL (JStr "2023-12-27") (-5) rv b, Kcritical)
  /\ -10 <= -5 /\ CRITICAL <> OK.
Proof. do 2 eexists. split; [reflexivity|]. split; [lia | discriminate]. Qed.

(** Claim C6 (amended): for a matched cycle with a concrete EOL date [E],
    [days_remaining = E - today] in days, and the status is CRITICAL when
    [days_remaining < 0], WARNING when [0 <= days_remaining < threshold_days],
    and OK when [days_remaining >= 0] and [days_remaining >= threshold_days]
    (for a non-negative threshold exactly the three stated ranges);
    with threshold 90 and today 2024-01-01, EOL 2023-12-01 is CRITICAL (-31),
    2024-02-01 WARNING (31) and 2025-01-01 OK (366). *)
Theorem dated_eol_classification :
  (forall (env : Env) (today : date) (threshold_days : Z) (dep : Dependency)
          (st : ClientState) (o : list (string * json)) (s : string) (E : date),
   snd (get_eol_info env (dep_name dep) (dep_version dep) st) = inr (JObj o) ->
   obj_get "eol" o = Some (JStr s) -> strptime_str s = inr E ->
   let d := days_between E today in
   exists st' status key rv b,
     check_dependency env today threshold_days dep st =
       (st', inr (ResChecked dep status (JStr s) d rv b, key)) /\
     (status = CRITICAL <-> d < 0) /\
     (status = WARNING <-> 0 <= d < threshold_days) /\
     (status = OK <-> 0 <= d /\ threshold_days <= d)) /\
  (exists rv b, snd (check_dependency env_python_dated (mkDate 2024 1 1) 90 (mkDep "python" "3.8.2") empty_state)
     = inr (ResChecked (mkDep "python" "3.8.2") CRITICAL (JStr "2023-12-01") (-31) rv b, Kcritical)) /\
  (exists rv b, snd (check_dependency env_python_dated (mkDate 2024 1 1) 90 (mkDep "python" "3.9.2") empty_state)
     = inr (ResChecked (mkDep "python" "3.9.2") WARNING (JStr "2024-02-01") 31 rv b, Kwarning)) /\
  (exists rv b, snd (check_dependency env_python_dated (mkDate 2024 1 1) 90 (mkDep "python" "3.10.2") empty_state)
     = inr (ResChecked (mkDep "python" "3.10.2") OK (JStr "2025-01-01") 366 rv b, Kok)).
Proof.
  split; [|split; [|split]]; try (do 2 eexists; reflexivity).
  intros env today threshold_days dep st o s E Hinfo Heol HE d.
  rewrite (check_dependency_with_eol env today threshold_days dep st o (JStr s) Hinfo Heol).
  simpl strptime. rewrite HE. cbv zeta.
  pose proof (classify_cases (days_between E today) threshold_days) as Hc.
  destruct (classify (days_between E today) threshold_days) as [status key].
  simpl in Hc.
  destruct (match status with
            | CRITICAL | WARNING =>
                recommend env today dep (JObj o) (fst (get_eol_info env (dep_name dep) (dep_version dep) st))
            | _ => (fst (get_eol_info env (dep_name dep) (dep_version dep) st), (JNull, false))
            end) as [st2 [rv b]].
  exists st2, status, key, rv, b. split; [reflexivity | exact Hc].
Qed.

Lemma dated_eol_classification_witness :
  exists st' status key rv b,
    check_dependency env_python_dated (mkDate 2024 1 1) 90 (mkDep "python" "3.8.2") empty_state =
      (st', inr (ResChecked (mkDep "python" "3.8.2") status (JStr "2023-12-01")
                   (days_between (mkDate 2023 12 1) (mkDate 2024 1 1)) rv b, key)) /\
    (status = CRITICAL <-> days_between (mkDate 2023 12 1) (mkDate 2024 1 1) < 0) /\
    (status = WARNING <-> 0 <= days_between (mkDate 2023 12 1) (mkDate 2024 1 1) < 90) /\
    (status = OK <-> 0 <= days_between (mkDate 2023 12 1) (mkDate 2024 1 1) /\
                      90 <= days_between (mkDate 2023 12 1) (mkDate 2024 1 1)).
Proof.
  apply (proj1 dated_eol_classification env_python_dated (mkDate 2024 1 1) 90
           (mkDep "python" "3.8.2") empty_state
           [("cycle", JStr "3.8"); ("eol", JStr "2023-12-01"); ("latest", JStr "3.8.20")]
           "2023-12-01" (mkDate 2023 12 1)); reflexivity.
Defined.

(* ------------------------------------------------------------------ *)
(** ** Version matching precedence *)

(** The [cycle] string of a catalog row. *)
Definition cycle_str (v : json) : option string :=
  match v with
  | JObj o => match obj_get "cycle" o with Some (JStr c) => Some c | _ => None end
  | _ => None
  end.

(** A well-formed catalog row: an object with a string [cycle]. *)
Definition release_cycle (v : json) : Prop :=
  exists o c, v = JObj o /\ obj_get "cycle" o = Some (JStr c).

(** The matching of the spec, in its own words: pass 1 takes the first
    cycle (in catalog order) that is a string prefix of the normalized
    version; only when there is none, pass 2 takes the first cycle whose
    leading dot-separated component is that of the normalized version. *)
Definition spec_resolve (vs : list json) (version : string) : json :=
  let nv := normalize_version version in
  match List.find (fun v => match cycle_str v with
                            | Some c => String.prefix c nv
                            | None => false end) vs with
  | Some v => v
  | None =>
      match List.find (fun v => match cycle_str v with
                                | Some c => String.eqb (first_component c) (first_component nv)
                                | None => false end) vs with
      | Some v => v
      | None => JNull
      end
  end.

Lemma match_prefix_find (nv : string) (vs : list json) :
  Forall release_cycle vs ->
  match_prefix nv vs =
  inr (List.find (fun v => match cycle_str v with
                           | Some c => String.prefix c nv
                           | None => false end) vs).
Proof.
  induction 1 as [|v vs (o & c & -> & Hc) _ IH]; [reflexivity|].
  simpl. rewrite Hc. simpl. destruct (String.prefix c nv); [reflexivity | exact IH].
Qed.

Lemma match_major_find (nv : string) (vs : list json) :
  Forall release_cycle vs ->
  match_major nv vs =
  inr (List.find (fun v => match cycle_str v with
                           | Some c => String.eqb (first_component c) (first_component nv)
                           | None => false end) vs).
Proof.
  induction 1 as [|v vs (o & c & -> & Hc) _ IH]; [reflexivity|].
  simpl. rewrite Hc. simpl. rewrite String.eqb_sym.
  destruct (String.eqb (first_component c) (first_component nv)); [reflexivity | exact IH].
Qed.

Lemma match_version_spec (vs : list json) (version : string) :
  Forall release_cycle vs ->
  match_version (JList vs) version = inr (spec_resolve vs version).
Proof.
  intros Hwf. unfold match_version, spec_resolve. simpl.
  rewrite (match_prefix_find _ _ Hwf). simpl.
  destruct (List.find _ vs); [reflexivity|]. simpl.
  rewrite (match_major_find _ _ Hwf). simpl.
  destruct (List.find _ vs); reflexivity.
Qed.

Definition cycle_32 : json := JObj [("cycle", JStr "3.2"); ("eol", JStr "2024-04-30"); ("latest", JStr "3.2.25")].
Definition cycle_3 : json := JObj [("cycle", JStr "3"); ("eol", JBool false); ("latest", JStr "3.9.9")].

Definition env_django_32_3 : Env :=
  mkEnv false false DEFAULT_CACHE_TTL 1700000000
        (fun ep => if String.eqb ep "django" then Some (JList [cycle_32; cycle_3]) else None)
        WriteOk.

(** Claim C5: once the product is available and its release cycles are
    fetched, [get_eol_info] returns the first cycle (in catalog order) that
    is a string prefix of the normalized version, and falls back to the
    leading-component match only when no cycle is such a prefix; for the
    catalog ["3.2" (EOL date); "3" (eol false)] and version "3.2.1" it
    returns cycle "3.2". *)
Theorem resolve_prefix_priority :
  (forall (env : Env) (package_name version : string) (st st1 st2 : ClientState)
          (vs : list json),
   is_product_available env (get_product_name package_name) st = (st1, inr true) ->
   get_product_versions env (get_product_name package_name) st1 = (st2, inr (JList vs)) ->
   Forall release_cycle vs ->
   get_eol_info env package_name version st = (st2, inr (spec_resolve vs version))) /\
  snd (get_eol_info env_django_32_3 "django" "3.2.1" empty_state) = inr cycle_32.
Proof.
  split; [|reflexivity].
  intros env package_name version st st1 st2 vs Hav Hvs Hwf.
  unfold get_eol_info, mbind, mcatch, lift. rewrite Hav. simpl.
  rewrite Hvs, (match_version_spec _ _ Hwf). reflexivity.
Qed.

Lemma resolve_prefix_priority_witness :
  exists st1 st2,
  is_product_available env_django_32_3 "django" empty_state = (st1, inr true) /\
  get_product_versions env_django_32_3 "django" st1 = (st2, inr (JList [cycle_32; cycle_3])) /\
  get_eol_info env_django_32_3 "django" "3.2.1" empty_state =
    (st2, inr (spec_resolve [cycle_32; cycle_3] "3.2.1")).
Proof.
  do 2 eexists. split; [reflexivity|]. split; [reflexivity|].
  eapply (proj1 resolve_prefix_priority); [reflexivity | reflexivity |].
  repeat constructor; eexists _, _; split; reflexivity.
Defined.

(* ------------------------------------------------------------------ *)
(** ** Breaking-change flag of the recommendation *)

Definition env_django_all_eol : Env :=
  mkEnv false false DEFAULT_CACHE_TTL 1700000000
        (fun ep => if String.eqb ep "django"
                   then Some (JList [JObj [("cycle", JStr "3.2"); ("eol", JStr "2022-04-01");
                                           ("latest", JStr "4.0.1")]])
                   else None)
        WriteOk.

(** Claim C8 (code defect): when no cycle is active, the recommendation
    falls back to the matched cycle's [latest] and the breaking-change
    test is skipped: recommending "4.0.1" for "3.2.1" leaves
    [has_breaking_changes] false although the leading components differ
    (the active-cycle branch would have flagged it). *)
Theorem fallback_recommendation_not_flagged :
  snd (check_dependency env_django_all_eol (mkDate 2023 1 1) 90 (mkDep "django" "3.2.1") empty_state)
  = inr (ResChecked (mkDep "django" "3.2.1") CRITICAL (JStr "2022-04-01") (-275)
                    (JStr "4.0.1") false, Kcritical) /\
  has_major_version_change "3.2.1" "4.0.1" = true.
Proof. split; reflexivity. Qed.

(* ------------------------------------------------------------------ *)
(** ** Aggregation *)

(** The summary bucket of each status (ERROR shares UNKNOWN's). *)
Definition key_of_status (s : Status) : SummaryKey :=
  match s with
  | CRITICAL => Kcritical
  | WARNING => Kwarning
  | OK => Kok
  | UNKNOWN | ERROR => Kunknown
  end.

Definition counter (k : SummaryKey) (s : Summary) : nat :=
  match k with
  | Kcritical => critical s
  | Kwarning => warning s
  | Kok => ok s
  | Kunknown => unknown s
  end.

Definition key_eqb (a b : SummaryKey) : bool :=
  match a, b with
  | Kcritical, Kcritical | Kwarning, Kwarning | Kok, Kok | Kunknown, Kunknown => true
  | _, _ => false
  end.

Lemma bump_comm (s : Summary) (a b : SummaryKey) : bump (bump s a) b = bump (bump s b) a.
Proof. destruct a, b; reflexivity. Qed.

Lemma fold_bump_perm (l1 l2 : list (Resolution * SummaryKey)) :
  Permutation l1 l2 ->
  forall s, fold_left (fun s r => bump s (snd r)) l1 s = fold_left (fun s r => bump s (snd r)) l2 s.
Proof.
  induction 1 as [|x l1 l2 _ IH|x y l|l1 l2 l3 _ IH1 _ IH2]; intros s; simpl.
  - reflexivity.
  - apply IH.
  - rewrite bump_comm. reflexivity.
  - rewrite IH1. apply IH2.
Qed.

Lemma fold_bump_counter (l : list (Resolution * SummaryKey)) (k : SummaryKey) :
  forall s, counter k (fold_left (fun s r => bump s (snd r)) l s) =
            (counter k s + List.length (List.filter (fun r => key_eqb (snd r) k) l))%nat.
Proof.
  induction l as [|[r k'] l IH]; intros s; simpl; [lia|].
  rewrite IH. destruct k, k'; simpl; lia.
Qed.

Lemma fold_bump_total (l : list (Resolution * SummaryKey)) :
  forall s, summary_total (fold_left (fun s r => bump s (snd r)) l s) =
            (summary_total s + List.length l)%nat.
Proof.
  induction l as [|[r k] l IH]; intros s; simpl; [lia|].
  rewrite IH. destruct k; unfold summary_total; simpl; lia.
Qed.

Lemma classify_key (d t : Z) :
  snd (classify d t) = key_of_status (fst (classify d t)).
Proof.
  unfold classify. destruct (d <? 0); [reflexivity|]. destruct (d <? t); reflexivity.
Qed.

Ltac bucket_by_value :=
  simpl; match goal with
         | |- exists _ _, (?a, inr (?b, _)) = _ => exists a, b; reflexivity
         end.

(** Every dependency yields one entry, and its bucket is that of its status. *)
Lemma check_dependency_bucket (env : Env) (today : date) (threshold_days : Z)
    (dep : Dependency) (st : ClientState) :
  exists st' r, check_dependency env today threshold_days dep st =
                (st', inr (r, key_of_status (res_status r))).
Proof.
  unfold check_dependency, mcatch, check_dependency_body, mbind, lift, mret.
  destruct (get_eol_info env (dep_name dep) (dep_version dep) st) as [st1 [e|info]];
    [bucket_by_value|].
  destruct (truthy info).
  - destruct (py_contains "eol" info) as [e|[|]]; [bucket_by_value| |bucket_by_value].
    simpl. destruct (py_index "eol" info) as [e|raw]; [bucket_by_value|].
    destruct (strptime raw) as [e|d]; [bucket_by_value|].
    pose proof (classify_key (days_between d today) threshold_days) as Hk.
    destruct (classify (days_between d today) threshold_days) as [status key].
    simpl in Hk. subst key.
    destruct (match status with
              | CRITICAL | WARNING => recommend env today dep info st1
              | _ => (st1, (JNull, false))
              end) as [st2 [rv b]].
    bucket_by_value.
  - bucket_by_value.
Qed.

(** Claim C9: the summary is a fold of one increment per result, so any
    permutation of the arrival order (any pool size) gives the same
    counts; each counter is the number of results with its bucket, the
    counters add up to the number of dependencies, and each dependency's
    bucket is that of its status, ERROR sharing UNKNOWN's. *)
Theorem summary_order_independent :
  (forall l1 l2 : list (Resolution * SummaryKey),
     Permutation l1 l2 -> summarize l1 = summarize l2) /\
  (forall l : list (Resolution * SummaryKey), summary_total (summarize l) = List.length l) /\
  (forall (l : list (Resolution * SummaryKey)) (k : SummaryKey),
     counter k (summarize l) = List.length (List.filter (fun r => key_eqb (snd r) k) l)) /\
  (forall (env : Env) (today : date) (threshold_days : Z) (dep : Dependency) (st : ClientState),
     exists st' r, check_dependency env today threshold_days dep st =
                   (st', inr (r, key_of_status (res_status r)))) /\
  key_of_status ERROR = key_of_status UNKNOWN.
Proof.
  split; [|split; [|split; [|split]]].
  - intros l1 l2 Hp. unfold summarize. apply fold_bump_perm. exact Hp.
  - intros l. unfold summarize. rewrite fold_bump_total. reflexivity.
  - intros l k. unfold summarize. rewrite fold_bump_counter. destruct k; reflexivity.
  - apply check_dependency_bucket.
  - reflexivity.
Qed.

Lemma summary_order_independent_witness :
  summarize [(ResUnknown (mkDep "a" "1"), Kunknown); (ResError (mkDep "b" "2") TypeError, Kunknown);
             (ResUnknown (mkDep "c" "3"), Kok)] =
  summarize [(ResUnknown (mkDep "c" "3"), Kok); (ResUnknown (mkDep "a" "1"), Kunknown);
             (ResError (mkDep "b" "2") TypeError, Kunknown)].
Proof.
  apply (proj1 summary_order_independent).
  apply Permutation_sym. apply Permutation_cons_append.
Defined.
(* ------------------------------------------------------------------ *)
(** ** Decimal rendering and re-parsing of version parts *)

Lemma string_of_uint_acc (d : Decimal.uint) (p : positive) :
  fold_left (fun acc c => (10 * acc + digit_val c)%N)
    (list_ascii_of_string (NilEmpty.string_of_uint d)) (Npos p) = Npos (Pos.of_uint_acc d p).
Proof.
  revert p; induction d; intros p; simpl; try reflexivity;
  rewrite <- IHd; f_equal; unfold digit_val; simpl; lia.
Qed.

Lemma string_of_uint_val (d : Decimal.uint) :
  int_of_digits (list_ascii_of_string (NilEmpty.string_of_uint d)) = N.of_uint d.
Proof.
  unfold int_of_digits, N.of_uint.
  induction d; simpl; try reflexivity; try (rewrite <- string_of_uint_acc; reflexivity).
  rewrite <- IHd. f_equal.
Qed.

Lemma string_of_uint_digits (d : Decimal.uint) :
  Forall (fun c => is_digit c = true) (list_ascii_of_string (NilEmpty.string_of_uint d)).
Proof. induction d; simpl; constructor; auto. Qed.

Lemma digit_runs_aux_digits (s : string) (cur : list ascii) :
  Forall (fun c => is_digit c = true) (list_ascii_of_string s) ->
  digit_runs_aux s cur =
  match (rev cur ++ list_ascii_of_string s)%list with [] => [] | l => [l] end.
Proof.
  revert cur; induction s as [|c s IH]; intros cur Hd; simpl.
  - rewrite app_nil_r. destruct cur as [|x cur]; [reflexivity|].
    simpl. destruct (rev cur); reflexivity.
  - inversion Hd; subst. rewrite H1, IH by assumption. simpl.
    rewrite <- app_assoc. simpl. destruct (rev cur); reflexivity.
Qed.

Lemma str_of_N_shape (n : N) :
  exists c s, str_of_N n = String c s /\ is_digit c = true /\
  Forall (fun c => is_digit c = true) (list_ascii_of_string s).
Proof.
  unfold str_of_N. pose proof (string_of_uint_digits (N.to_uint n)) as Hd.
  destruct (N.to_uint n) eqn:E.
  1: exfalso; destruct n as [|p]; [discriminate|].
    apply (DecimalPos.Unsigned.to_uint_nonnil p); exact E.
  all: do 2 eexists; split; [reflexivity|]; simpl in Hd; inversion Hd; subst; split; assumption.
Qed.

Lemma parse_version_str_of_N (n : N) : parse_version (str_of_N n) = [n].
Proof.
  unfold parse_version, findall_digits.
  rewrite digit_runs_aux_digits by (unfold str_of_N; apply string_of_uint_digits).
  destruct (str_of_N_shape n) as (c & s & Hs & _).
  unfold str_of_N in *. simpl.
  assert (Hne : list_ascii_of_string (NilEmpty.string_of_uint (N.to_uint n)) <> [])
    by (rewrite Hs; discriminate).
  destruct (list_ascii_of_string (NilEmpty.string_of_uint (N.to_uint n))) eqn:E;
    [contradiction|].
  simpl. rewrite <- E, string_of_uint_val. f_equal. apply DecimalN.Unsigned.of_to.
Qed.

Lemma parse_version_join (l : list N) :
  parse_version (String.concat "." (map str_of_N l)) = l.
Proof.
  induction l as [|n l IH]; [reflexivity|].
  destruct l as [|m l].
  - apply parse_version_str_of_N.
  - change (String.concat "." (map str_of_N (n :: m :: l))) with
      (str_of_N n ++ String "." (String.concat "." (map str_of_N (m :: l)))).
    rewrite (parse_version_sep _ _ "." eq_refl). rewrite parse_version_str_of_N, IH. reflexivity.
Qed.

Lemma parse_version_strip_leading_v (s : string) :
  parse_version (strip_leading_v s) = parse_version s.
Proof.
  destruct s as [|c s]; [reflexivity|]. simpl.
  destruct (Ascii.eqb c "v") eqn:E.
  - apply Ascii.eqb_eq in E. subst c. reflexivity.
  - destruct c as [[] [] [] [] [] [] [] []]; try reflexivity; discriminate.
Qed.

(** [normalize_version] loses no number: parsing the normalized string
    gives back exactly the parts of the original version (a leading [v]
    has no digits to lose). *)
Theorem parse_version_normalize (s : string) :
  parse_version (normalize_version s) = parse_version s.
Proof.
  unfold normalize_version. rewrite parse_version_join. apply parse_version_strip_leading_v.
Qed.

Lemma strip_leading_v_join (l : list N) :
  strip_leading_v (String.concat "." (map str_of_N l)) = String.concat "." (map str_of_N l).
Proof.
  destruct l as [|n l]; [reflexivity|].
  destruct (str_of_N_shape n) as (c & s & Hs & Hc & _).
  assert (Hv : c <> "v"%char) by (intros ->; discriminate).
  destruct l as [|m l]; simpl; rewrite Hs; simpl;
    destruct c as [[] [] [] [] [] [] [] []]; try reflexivity; congruence.
Qed.

(** [normalize_version] is idempotent: a normalized version is its own
    normal form. *)
Theorem normalize_version_idempotent (s : string) :
  normalize_version (normalize_version s) = normalize_version s.
Proof.
  assert (E : normalize_version s =
              String.concat "." (map str_of_N (parse_version (strip_leading_v s))))
    by reflexivity.
  rewrite E. unfold normalize_version.
  rewrite strip_leading_v_join, parse_version_join. reflexivity.
Qed.

Ltac cmp_cases :=
  repeat match goal with
  | |- context [(?a <? ?b)%N] =>
      let E := fresh "E" in destruct (a <? b)%N eqn:E;
      [apply N.ltb_lt in E | apply N.ltb_ge in E]
  end.

Lemma compare_parts_refl (n : nat) (l : list N) : compare_parts n l l = 0.
Proof.
  revert l; induction n; intros l; simpl; [reflexivity|]. cmp_cases; try lia. apply IHn.
Qed.

Lemma compare_parts_antisym (n : nat) (l1 l2 : list N) :
  compare_parts n l1 l2 = - compare_parts n l2 l1.
Proof.
  revert l1 l2; induction n; intros l1 l2; simpl; [reflexivity|]. cmp_cases; try lia. apply IHn.
Qed.

Lemma compare_parts_zeros (n k : nat) (l : list N) :
  compare_parts n l (l ++ repeat 0%N k)%list = 0.
Proof.
  revert l k; induction n; intros l k; simpl; [reflexivity|].
  destruct l as [|a l]; simpl.
  - destruct k; simpl; cmp_cases; try lia; first [apply (IHn [] 0%nat) | apply (IHn [] k)].
  - cmp_cases; try lia. apply IHn.
Qed.

Lemma compare_parts_extra (n : nat) (l1 l2 : list N) :
  (List.length l1 <= n)%nat -> (List.length l2 <= n)%nat ->
  compare_parts (S n) l1 l2 = compare_parts n l1 l2.
Proof.
  revert l1 l2; induction n; intros l1 l2 H1 H2.
  - destruct l1; [|simpl in H1; lia]. destruct l2; [|simpl in H2; lia]. reflexivity.
  - change (compare_parts (S (S n)) l1 l2) with
      (let v1_part := match l1 with p :: _ => p | [] => 0%N end in
       let v2_part := match l2 with p :: _ => p | [] => 0%N end in
       if (v1_part <? v2_part)%N then -1
       else if (v2_part <? v1_part)%N then 1
       else compare_parts (S n) (tl l1) (tl l2)).
    cbv zeta. rewrite (IHn (tl l1) (tl l2)); [reflexivity| |];
      destruct l1, l2; simpl in *; lia.
Qed.

Lemma compare_parts_extend (k n : nat) (l1 l2 : list N) :
  (List.length l1 <= n)%nat -> (List.length l2 <= n)%nat ->
  compare_parts (k + n) l1 l2 = compare_parts n l1 l2.
Proof.
  intros H1 H2. induction k; [reflexivity|].
  change (S k + n)%nat with (S (k + n)). rewrite compare_parts_extra by lia. exact IHk.
Qed.

Lemma compare_parts_trans (n : nat) (l1 l2 l3 : list N) :
  compare_parts n l1 l2 <= 0 -> compare_parts n l2 l3 <= 0 -> compare_parts n l1 l3 <= 0.
Proof.
  revert l1 l2 l3; induction n; intros l1 l2 l3; simpl; [lia|].
  cmp_cases; try lia. apply IHn.
Qed.

Lemma compare_versions_at (a b : string) (n : nat) :
  (List.length (parse_version a) <= n)%nat -> (List.length (parse_version b) <= n)%nat ->
  compare_versions a b = compare_parts n (parse_version a) (parse_version b).
Proof.
  intros Ha Hb. unfold compare_versions.
  set (m := Nat.max (List.length (parse_version a)) (List.length (parse_version b))).
  assert (Hn : n = (n - m + m)%nat) by lia.
  rewrite Hn, compare_parts_extend by lia. reflexivity.
Qed.

(** [compare_versions] is antisymmetric (swapping the arguments negates
    the result) and reflexive (a version compares equal to itself). *)
Theorem compare_versions_antisym_refl (a b : string) :
  compare_versions a b = - compare_versions b a /\ compare_versions a a = 0.
Proof.
  split.
  - unfold compare_versions. rewrite Nat.max_comm. apply compare_parts_antisym.
  - apply compare_parts_refl.
Qed.

(** [compare_versions] is transitive: if [a <= b] and [b <= c] then
    [a <= c], whatever the lengths of the three versions. *)
Theorem compare_versions_trans (a b c : string) :
  compare_versions a b <= 0 -> compare_versions b c <= 0 -> compare_versions a c <= 0.
Proof.
  set (n := Nat.max (List.length (parse_version a))
             (Nat.max (List.length (parse_version b)) (List.length (parse_version c)))).
  rewrite !(compare_versions_at _ _ n) by lia.
  apply compare_parts_trans.
Qed.

Lemma compare_versions_trans_witness :
  compare_versions "1.2" "1.10" <= 0 /\ compare_versions "1.10" "2.0" <= 0 /\
  compare_versions "1.2" "2.0" <= 0.
Proof.
  assert (H1 : compare_versions "1.2" "1.10" <= 0) by (vm_compute; discriminate).
  assert (H2 : compare_versions "1.10" "2.0" <= 0) by (vm_compute; discriminate).
  split; [exact H1|]. split; [exact H2|].
  exact (compare_versions_trans "1.2" "1.10" "2.0" H1 H2).
Defined.

(** Missing parts count as [0] and only the digit runs matter: a version
    compares equal to itself with [.0] appended and to its normalized
    form. *)
Theorem compare_versions_equivalent_forms (s : string) :
  compare_versions s (s ++ ".0") = 0 /\ compare_versions (normalize_version s) s = 0.
Proof.
  split.
  - unfold compare_versions. rewrite (parse_version_sep _ _ "." eq_refl).
    apply (compare_parts_zeros _ 1).
  - unfold compare_versions. rewrite parse_version_normalize. apply compare_parts_refl.
Qed.

(* ------------------------------------------------------------------ *)
(** ** [extract_major_minor] and [has_major_version_change] *)

Lemma span_digits_app (s : string) : fst (span_digits s) ++ snd (span_digits s) = s.
Proof.
  induction s as [|c s IH]; [reflexivity|]. simpl.
  destruct (is_digit c); [|reflexivity].
  destruct (span_digits s) as [d r]; simpl in *. rewrite <- IH. reflexivity.
Qed.

Lemma span_digits_all (s : string) :
  Forall (fun c => is_digit c = true) (list_ascii_of_string (fst (span_digits s))).
Proof.
  induction s as [|c s IH]; simpl; [constructor|].
  destruct (is_digit c) eqn:E; [|constructor].
  destruct (span_digits s) as [d r]. simpl in *. constructor; auto.
Qed.

Lemma span_digits_stop (s : string) :
  match snd (span_digits s) with String c _ => is_digit c = false | EmptyString => True end.
Proof.
  induction s as [|c s IH]; simpl; [exact I|].
  destruct (is_digit c) eqn:E; [|exact E].
  destruct (span_digits s) as [d r]. exact IH.
Qed.

Lemma span_digits_of_digits (d r : string) :
  Forall (fun c => is_digit c = true) (list_ascii_of_string d) ->
  match r with String c _ => is_digit c = false | EmptyString => True end ->
  span_digits (d ++ r) = (d, r).
Proof.
  intros Hd Hr. induction d as [|c d IH]; simpl.
  - destruct r as [|c r]; [reflexivity|]. simpl. rewrite Hr. reflexivity.
  - inversion Hd; subst. rewrite H1, IH by assumption. reflexivity.
Qed.

Lemma prefix_app (s t : string) : String.prefix s (s ++ t) = true.
Proof.
  induction s as [|c s IH]; [destruct t; reflexivity|]. simpl.
  destruct (ascii_dec c c); [exact IH | contradiction].
Qed.



Lemma str_app_nil_r (s : string) : s ++ "" = s.
Proof. induction s as [|c s IH]; [reflexivity|]. change (String c (s ++ "") = String c s). by rewrite IH. Qed.

Lemma str_app_assoc (s t u : string) : s ++ (t ++ u) = (s ++ t) ++ u.
Proof.
  induction s as [|c s IH]; [reflexivity|].
  change (String c (s ++ (t ++ u)) = String c ((s ++ t) ++ u)). by rewrite IH.
Qed.

Lemma prefix_refl (s : string) : String.prefix s s = true.
Proof. rewrite <- (str_app_nil_r s) at 2. apply prefix_app. Qed.

Lemma extract_major_minor_cases (version : string) :
  extract_major_minor version = version \/
  exists d1 d2 rest,
    version = d1 ++ String "." (d2 ++ rest) /\
    extract_major_minor version = d1 ++ String "." d2 /\
    Forall (fun c => is_digit c = true) (list_ascii_of_string d1) /\
    Forall (fun c => is_digit c = true) (list_ascii_of_string d2) /\
    d1 <> EmptyString /\ d2 <> EmptyString.
Proof.
  unfold extract_major_minor.
  pose proof (span_digits_app version) as Happ.
  pose proof (span_digits_all version) as Hall.
  destruct (span_digits version) as [d1 r1]; simpl in Happ, Hall.
  destruct d1 as [|c1 d1]; [left; reflexivity|].
  destruct r1 as [|c r2]; [left; reflexivity|].
  destruct (Ascii.eqb c ".") eqn:Ec; [|left; reflexivity].
  apply Ascii.eqb_eq in Ec; subst c.
  pose proof (span_digits_app r2) as Happ2.
  pose proof (span_digits_all r2) as Hall2.
  destruct (span_digits r2) as [d2 rest]; simpl in Happ2, Hall2.
  destruct d2 as [|c2 d2]; [left; reflexivity|].
  right. exists (String c1 d1), (String c2 d2), rest.
  repeat split; try assumption; try discriminate.
  rewrite <- Happ, <- Happ2. reflexivity.
Qed.



(** [extract_major_minor] returns a prefix of its argument (the whole
    argument when the [major.minor] pattern does not match), and applying
    it twice gives the same result as once. *)
Theorem extract_major_minor_prefix (version : string) :
  String.prefix (extract_major_minor version) version = true /\
  extract_major_minor (extract_major_minor version) = extract_major_minor version.
Proof.
  destruct (extract_major_minor_cases version) as
    [E | (d1 & d2 & rest & Ev & E & H1 & H2 & Hne1 & Hne2)]; rewrite E.
  - split; [apply prefix_refl | exact E].
  - split.
    + rewrite Ev. change (String "." (d2 ++ rest)) with (String "." d2 ++ rest).
      rewrite str_app_assoc. apply prefix_app.
    + unfold extract_major_minor.
      rewrite (span_digits_of_digits d1 (String "." d2)) by (assumption || reflexivity).
      destruct d1 as [|c1 d1]; [congruence|]. cbn -[span_digits append].
      replace (span_digits d2) with (d2, "") by
        (rewrite <- (span_digits_of_digits d2 "") by (assumption || exact I);
         rewrite str_app_nil_r; reflexivity).
      destruct d2; [congruence|]. reflexivity.
Qed.

(** [has_major_version_change] is symmetric, never holds between a
    version and itself, and when it holds the two versions compare
    unequal. *)
Theorem has_major_version_change_props (a b : string) :
  has_major_version_change a b = has_major_version_change b a /\
  has_major_version_change a a = false /\
  (has_major_version_change a b = true -> compare_versions a b <> 0).
Proof.
  unfold has_major_version_change. split; [|split].
  - rewrite orb_comm. destruct (_ || _); [reflexivity|].
    destruct (parse_version a) as [|x la], (parse_version b) as [|y lb]; try reflexivity.
    rewrite N.eqb_sym. reflexivity.
  - destruct (_ || _); [reflexivity|].
    destruct (parse_version a) as [|x la]; [reflexivity|]. rewrite N.eqb_refl. reflexivity.
  - destruct (_ || _); [discriminate|]. unfold compare_versions.
    destruct (parse_version a) as [|x la], (parse_version b) as [|y lb]; try discriminate.
    intros H. apply negb_true_iff, N.eqb_neq in H.
    simpl. destruct (x <? y)%N eqn:E1; [discriminate|].
    destruct (y <? x)%N eqn:E2; [discriminate|].
    apply N.ltb_ge in E1, E2. lia.
Qed.

Lemma has_major_version_change_props_witness :
  has_major_version_change "2.7.16" "3.12" = true /\ compare_versions "2.7.16" "3.12" <> 0.
Proof.
  assert (H : has_major_version_change "2.7.16" "3.12" = true) by reflexivity.
  split; [exact H|]. exact (proj2 (proj2 (has_major_version_change_props "2.7.16" "3.12")) H).
Defined.

(* ------------------------------------------------------------------ *)
(** ** Cache keys, paths, writes and [clear] *)

Lemma str_length_app (s t : string) : String.length (s ++ t) = (String.length s + String.length t)%nat.
Proof. induction s as [|c s IH]; [reflexivity|]. change (S (String.length (s ++ t)) = S (String.length s + String.length t))%nat. lia. Qed.

Lemma substring_app_r (s t : string) (n : nat) :
  String.substring (String.length s) n (s ++ t) = String.substring 0 n t.
Proof. induction s as [|c s IH]; [reflexivity|]. exact IH. Qed.

Lemma substring_full (t : string) : String.substring 0 (String.length t) t = t.
Proof. induction t as [|c t IH]; [reflexivity|]. simpl. rewrite IH. reflexivity. Qed.

Lemma ends_with_app (s t : string) : ends_with t (s ++ t) = true.
Proof.
  unfold ends_with. rewrite str_length_app.
  replace (String.length s + String.length t - String.length t)%nat with (String.length s) by lia.
  rewrite substring_app_r, substring_full, String.eqb_refl.
  apply andb_true_iff. split; [apply Nat.leb_le; lia | reflexivity].
Qed.

Lemma forall_substring0 (P : ascii -> Prop) (n : nat) (s : string) :
  Forall P (list_ascii_of_string s) -> Forall P (list_ascii_of_string (String.substring 0 n s)).
Proof.
  revert n; induction s as [|c s IH]; intros n H; destruct n; simpl; try constructor.
  all: inversion H; subst; auto.
Qed.

Lemma forall_str_app (P : ascii -> Prop) (s t : string) :
  Forall P (list_ascii_of_string s) -> Forall P (list_ascii_of_string t) ->
  Forall P (list_ascii_of_string (s ++ t)).
Proof.
  induction s as [|c s IH]; intros Hs Ht; [exact Ht|].
  inversion Hs; subst. change (Forall P (c :: list_ascii_of_string (s ++ t))).
  constructor; auto.
Qed.

Lemma forall_str_replace (P : ascii -> Prop) (a b : ascii) (s : string) :
  Forall P (list_ascii_of_string s) -> P b ->
  Forall P (list_ascii_of_string (str_replace_char a b s)).
Proof.
  induction s as [|c s IH]; intros Hs Hb; simpl; [constructor|].
  inversion Hs; subst. constructor; [|auto]. destruct (Ascii.eqb c a); assumption.
Qed.

Lemma str_replace_removes (a b : ascii) (s : string) :
  b <> a -> Forall (fun c => c <> a) (list_ascii_of_string (str_replace_char a b s)).
Proof.
  intros Hba. induction s as [|c s IH]; simpl; constructor; [|exact IH].
  destruct (Ascii.eqb c a) eqn:E; [exact Hba|]. intros ->. rewrite Ascii.eqb_refl in E. discriminate.
Qed.

(** Every cache file name ends in [.json] and contains no [/] and no [:]. *)
Theorem cache_path_shape (key : string) :
  ends_with ".json" (get_cache_path key) = true /\
  Forall (fun c => c <> "/"%char /\ c <> ":"%char) (list_ascii_of_string (get_cache_path key)).
Proof.
  unfold get_cache_path. split; [apply ends_with_app|].
  set (f := str_replace_char ":" "_" (str_replace_char "/" "_" key)).
  assert (Hf : Forall (fun c => c <> "/"%char /\ c <> ":"%char) (list_ascii_of_string f)).
  { pose proof (str_replace_removes "/" "_" key ltac:(discriminate)) as H1.
    pose proof (str_replace_removes ":" "_" (str_replace_char "/" "_" key) ltac:(discriminate)) as H2.
    pose proof (forall_str_replace (fun c => c <> "/"%char) ":" "_" _ H1 ltac:(discriminate)) as H3.
    apply Forall_and; split; assumption. }
  apply forall_str_app; [|repeat constructor; discriminate].
  destruct (ends_with ".json" f); [apply forall_substring0|]; exact Hf.
Qed.

Lemma cache_path_shape_witness :
  get_cache_path "eol_api_a/b:c.json" = "eol_api_a_b_c.json" /\
  Forall (fun c => c <> "/"%char /\ c <> ":"%char)
         (list_ascii_of_string (get_cache_path "eol_api_a/b:c.json")).
Proof. split; [reflexivity|]. apply (proj2 (cache_path_shape "eol_api_a/b:c.json")). Defined.

(** After [Cache.clear], [get] misses on every key whose file was
    removed, and answers as before for a key whose removal failed. *)
Theorem cache_clear_get (store : Store) (remove_fails : string -> bool) (now : Z) (key : string) :
  cache_get (cache_clear store remove_fails) now key =
  if remove_fails (get_cache_path key) then cache_get store now key else JNull.
Proof.
  unfold cache_get, cache_clear. rewrite map_lookup_filter.
  destruct (store !! get_cache_path key) as [f|]; simpl;
    [|destruct (remove_fails _); reflexivity].
  pose proof (proj1 (cache_path_shape key)) as He.
  destruct (remove_fails (get_cache_path key)) eqn:Hr.
  - rewrite option_guard_True; [reflexivity|]. simpl. intros [_ H]. congruence.
  - rewrite option_guard_False; [reflexivity|]. simpl. tauto.
Qed.

(** [Cache.set] only touches the file of its key: [get] on a key with
    another file is unchanged; and a successful [set] hides every earlier
    [set] of the same key, whatever its outcome. *)
Theorem cache_set_frame (store : Store) (k k' : string) (v v' : json)
    (t ttl t' ttl' now : Z) (w : WriteOutcome) :
  (get_cache_path k <> get_cache_path k' ->
   cache_get (cache_set store t k v ttl w) now k' = cache_get store now k') /\
  cache_get (cache_set (cache_set store t k v ttl w) t' k v' ttl' WriteOk) now k =
  cache_get (cache_set store t' k v' ttl' WriteOk) now k.
Proof.
  split.
  - intros Hne. unfold cache_get, cache_set.
    destruct w; [rewrite lookup_insert_ne by exact Hne | | rewrite lookup_insert_ne by exact Hne];
      reflexivity.
  - unfold cache_get, cache_set at 1 3.
    destruct w; simpl; rewrite ?lookup_insert_eq; reflexivity.
Qed.

Lemma cache_set_frame_witness :
  get_cache_path "a" <> get_cache_path "b" /\
  cache_get (cache_set (cache_set ∅ 0 "b" (JStr "y") 60 WriteOk) 0 "a" (JStr "x") 60 WriteTorn) 0 "b"
  = cache_get (cache_set ∅ 0 "b" (JStr "y") 60 WriteOk) 0 "b".
Proof.
  assert (H : get_cache_path "a" <> get_cache_path "b") by (vm_compute; discriminate).
  split; [exact H|].
  apply (proj1 (cache_set_frame (cache_set ∅ 0 "b" (JStr "y") 60 WriteOk) "a" "b"
                  (JStr "x") (JStr "x") 0 60 0 60 0 WriteTorn)).
  exact H.
Defined.

Lemma str_replace_char_idem (a b : ascii) (s : string) :
  b <> a -> str_replace_char a b (str_replace_char a b s) = str_replace_char a b s.
Proof.
  intros Hba. induction s as [|c s IH]; [reflexivity|]. simpl. rewrite IH. f_equal.
  destruct (Ascii.eqb c a) eqn:E; simpl.
  - destruct (Ascii.eqb b a) eqn:E2; [apply Ascii.eqb_eq in E2; congruence | reflexivity].
  - rewrite E. reflexivity.
Qed.

Lemma str_replace_char_comm (a a' b : ascii) (s : string) :
  str_replace_char a b (str_replace_char a' b s) = str_replace_char a' b (str_replace_char a b s).
Proof.
  induction s as [|c s IH]; [reflexivity|]. simpl. rewrite IH. f_equal.
  destruct (Ascii.eqb c a) eqn:E1, (Ascii.eqb c a') eqn:E2; simpl; rewrite ?E1, ?E2;
    try reflexivity;
    destruct (Ascii.eqb b a) eqn:E3, (Ascii.eqb b a') eqn:E4; reflexivity.
Qed.

(** Keys that differ only by [/] or [:] versus [_] share one cache file:
    [get] cannot tell them apart. *)
Theorem cache_key_separators_collide (store : Store) (now : Z) (key : string) :
  cache_get store now (str_replace_char "/" "_" key) = cache_get store now key /\
  cache_get store now (str_replace_char ":" "_" key) = cache_get store now key.
Proof.
  assert (H1 : get_cache_path (str_replace_char "/" "_" key) = get_cache_path key).
  { unfold get_cache_path. rewrite str_replace_char_idem by discriminate. reflexivity. }
  assert (H2 : get_cache_path (str_replace_char ":" "_" key) = get_cache_path key).
  { unfold get_cache_path.
    rewrite (str_replace_char_comm "/" ":" "_" key).
    rewrite str_replace_char_idem by discriminate. reflexivity. }
  unfold cache_get. rewrite H1, H2. split; reflexivity.
Qed.

(* ------------------------------------------------------------------ *)
(** ** The client: product names, availability, offline mode, reuse *)

Lemma ascii_lower_idem (c : ascii) : ascii_lower (ascii_lower c) = ascii_lower c.
Proof. destruct c as [[] [] [] [] [] [] [] []]; reflexivity. Qed.

Lemma str_lower_idem (s : string) : str_lower (str_lower s) = str_lower s.
Proof. induction s as [|c s IH]; [reflexivity|]. simpl. rewrite IH, ascii_lower_idem. reflexivity. Qed.

Lemma mapping_get_lower (k p : string) : mapping_get k = Some p -> str_lower p = p.
Proof.
  unfold mapping_get, product_mapping. cbn [List.find fst].
  repeat (destruct (String.eqb _ k); [intros H; injection H as <-; reflexivity|]).
  discriminate.
Qed.

(** [_get_product_name] always yields a lowercase name and ignores the
    case of the package name. *)
Theorem get_product_name_lowercase (package_name : string) :
  str_lower (get_product_name package_name) = get_product_name package_name /\
  get_product_name (str_lower package_name) = get_product_name package_name.
Proof.
  unfold get_product_name. rewrite str_lower_idem. split; [|reflexivity].
  destruct (mapping_get (str_lower package_name)) as [p|] eqn:E1; [eapply mapping_get_lower; eauto|].
  destruct (mapping_get (str_replace_char "_" "-" (str_lower package_name))) as [p|] eqn:E2;
    [eapply mapping_get_lower; eauto | apply str_lower_idem].
Qed.

Lemma get_with_cache_offline (env : Env) (net : string -> option json) (w : WriteOutcome)
    (endpoint : string) (st : ClientState) :
  env_offline env = true ->
  get_with_cache env endpoint st = get_with_cache (with_network env net w) endpoint st /\
  fst (get_with_cache env endpoint st) = st.
Proof.
  intros Ho. unfold get_with_cache, with_network. simpl. rewrite Ho.
  destruct (negb (env_force env) && _); split; reflexivity.
Qed.

Lemma is_product_available_offline (env : Env) (net : string -> option json) (w : WriteOutcome)
    (p : string) (st : ClientState) :
  env_offline env = true ->
  is_product_available env p st = is_product_available (with_network env net w) p st /\
  cs_store (fst (is_product_available env p st)) = cs_store st.
Proof.
  intros Ho. unfold is_product_available.
  destruct (cs_memo st !! p); [split; reflexivity|].
  destruct (get_with_cache_offline env net w p st Ho) as [E F].
  rewrite <- E. destruct (get_with_cache env p st) as [st1 r]. simpl in F |- *. subst st1.
  split; reflexivity.
Qed.

Lemma get_eol_info_offline (env : Env) (net : string -> option json) (w : WriteOutcome)
    (name version : string) (st : ClientState) :
  env_offline env = true ->
  get_eol_info env name version st = get_eol_info (with_network env net w) name version st /\
  cs_store (fst (get_eol_info env name version st)) = cs_store st.
Proof.
  intros Ho. unfold get_eol_info, mbind, mcatch, get_product_versions, mret, lift.
  destruct (is_product_available_offline env net w (get_product_name name) st Ho) as [E F].
  rewrite <- E. destruct (is_product_available env (get_product_name name) st) as [st1 [e|b]].
  { simpl in F. split; [reflexivity|exact F]. }
  simpl in F. destruct (negb b); [split; [reflexivity|exact F]|].
  destruct (get_with_cache_offline env net w (get_product_name name) st1 Ho) as [E2 F2].
  rewrite <- E2. destruct (get_with_cache env (get_product_name name) st1) as [st2 r].
  simpl in F2. subst st2.
  destruct r as [e|vs]; [split; [reflexivity|exact F]|].
  destruct (match_version vs version); split; try reflexivity; exact F.
Qed.

Lemma recommend_offline (env : Env) (net : string -> option json) (w : WriteOutcome)
    (today : date) (dep : Dependency) (eol_info : json) (st : ClientState) :
  env_offline env = true ->
  recommend env today dep eol_info st = recommend (with_network env net w) today dep eol_info st /\
  cs_store (fst (recommend env today dep eol_info st)) = cs_store st.
Proof.
  intros Ho. unfold recommend, get_product_versions.
  destruct (String.eqb (get_product_name (dep_name dep)) ""); [split; reflexivity|].
  destruct (get_with_cache_offline env net w (get_product_name (dep_name dep)) st Ho) as [E F].
  rewrite <- E. destruct (get_with_cache env (get_product_name (dep_name dep)) st) as [st1 r].
  simpl in F. subst st1. destruct r as [e|vs]; [split; reflexivity|].
  set (r := (let? vs0 := py_iter vs in let? act := active_versions today vs0 in inr act)).
  destruct r as [e|[|l ls]]; [split; reflexivity| |].
  - destruct (py_dict_get "latest" eol_info); split; reflexivity.
  - destruct (py_dict_get "latest" l) as [e|rv]; [split; reflexivity|].
    destruct (truthy rv); [|split; reflexivity].
    destruct (py_has_major_version_change (dep_version dep) rv); split; reflexivity.
Qed.

(** In offline mode checking a dependency never touches the network nor
    writes the cache: the outcome and the state are the same for any
    catalog server and any fate of cache writes, and the cache directory
    is unchanged. *)
Theorem offline_check_never_uses_network (env : Env) (net : string -> option json)
    (w : WriteOutcome) (today : date) (threshold_days : Z) (dep : Dependency) (st : ClientState) :
  env_offline env = true ->
  check_dependency env today threshold_days dep st =
    check_dependency (with_network env net w) today threshold_days dep st /\
  cs_store (fst (check_dependency env today threshold_days dep st)) = cs_store st.
Proof.
  intros Ho. unfold check_dependency, mcatch, check_dependency_body, mbind, lift, mret.
  destruct (get_eol_info_offline env net w (dep_name dep) (dep_version dep) st Ho) as [E F].
  rewrite <- E. destruct (get_eol_info env (dep_name dep) (dep_version dep) st) as [st1 [e|info]];
    simpl in F; [split; [reflexivity|exact F]|].
  destruct (truthy info); [|split; [reflexivity|exact F]].
  destruct (py_contains "eol" info) as [e|[|]]; [split; [reflexivity|exact F]| |split; [reflexivity|exact F]].
  simpl. destruct (py_index "eol" info) as [e|raw]; [split; [reflexivity|exact F]|].
  destruct (strptime raw) as [e|d]; [split; [reflexivity|exact F]|].
  destruct (classify (days_between d today) threshold_days) as [status key].
  destruct (recommend_offline env net w today dep info st1 Ho) as [E2 F2].
  destruct status; try (split; [reflexivity|exact F]);
    rewrite <- E2; destruct (recommend env today dep info st1) as [st2 [rv b]];
    simpl in F2 |- *; split; [reflexivity| congruence | reflexivity | congruence].
Qed.

Lemma offline_check_never_uses_network_witness :
  env_offline env_offline_only = true /\
  check_dependency env_offline_only (mkDate 2024 1 1) 90 (mkDep "django" "3.2.1") empty_state =
  check_dependency (with_network env_offline_only (fun _ => None) WriteTorn)
                   (mkDate 2024 1 1) 90 (mkDep "django" "3.2.1") empty_state.
Proof.
  split; [reflexivity|].
  apply (proj1 (offline_check_never_uses_network env_offline_only (fun _ => None) WriteTorn
                  (mkDate 2024 1 1) 90 (mkDep "django" "3.2.1") empty_state eq_refl)).
Defined.



Lemma substring_prefix_app (s t : string) : String.substring 0 (String.length s) (s ++ t) = s.
Proof.
  induction s as [|c s IH]; [destruct t; reflexivity|].
  change (String c (String.substring 0 (String.length s) (s ++ t)) = String c s). by rewrite IH.
Qed.

Lemma strip_json_suffix_app (endpoint : string) :
  strip_json_suffix (endpoint ++ ".json") = endpoint.
Proof.
  unfold strip_json_suffix. rewrite ends_with_app, str_length_app.
  replace (String.length endpoint + String.length ".json" - 5)%nat
    with (String.length endpoint) by (simpl; lia).
  apply substring_prefix_app.
Qed.

(** An endpoint that does not itself end in [.json] has the cache key of
    the same endpoint with [.json] appended, so a cached answer for one is
    returned for the other. *)
Theorem json_suffix_shares_cache_entry (env : Env) (endpoint : string) (st : ClientState) :
  ends_with ".json" endpoint = false ->
  endpoint_cache_key (endpoint ++ ".json") = endpoint_cache_key endpoint /\
  (env_force env = false ->
   truthy (cache_get (cs_store st) (env_now env) (endpoint_cache_key endpoint)) = true ->
   get_with_cache env (endpoint ++ ".json") st = get_with_cache env endpoint st).
Proof.
  intros He.
  assert (Hk : endpoint_cache_key (endpoint ++ ".json") = endpoint_cache_key endpoint).
  { unfold endpoint_cache_key. rewrite strip_json_suffix_app.
    unfold strip_json_suffix. rewrite He. reflexivity. }
  split; [exact Hk|]. intros Hf Ht.
  rewrite (get_with_cache_hit env endpoint st Hf Ht).
  rewrite <- Hk in Ht. rewrite (get_with_cache_hit env (endpoint ++ ".json") st Hf Ht).
  rewrite Hk. reflexivity.
Qed.

Definition st_django_cached : ClientState :=
  mkState (cache_set ∅ 1700000000 "eol_api_django" (JList [cycle_32; cycle_3])
                     DEFAULT_CACHE_TTL WriteOk) ∅.

Lemma json_suffix_shares_cache_entry_witness :
  ends_with ".json" "django" = false /\
  get_with_cache env_offline_only ("django" ++ ".json") st_django_cached =
  get_with_cache env_offline_only "django" st_django_cached.
Proof.
  split; [reflexivity|].
  apply (proj2 (json_suffix_shares_cache_entry env_offline_only "django" st_django_cached
                  eq_refl)); reflexivity.
Defined.

Lemma match_prefix_cycle (nv : string) (vs : list json) (x : json) :
  match_prefix nv vs = inr (Some x) -> exists o c, x = JObj o /\ obj_get "cycle" o = Some c.
Proof.
  induction vs as [|v vs IH]; simpl; [discriminate|].
  destruct v as [| | | s | l | o]; simpl; try discriminate; try exact IH.
  - destruct (substring_in "cycle" s); simpl; [discriminate | exact IH].
  - destruct (existsb _ l); simpl; [discriminate | exact IH].
  - destruct (obj_get "cycle" o) as [c|] eqn:Hc; simpl; [|exact IH].
    destruct (py_startswith nv c) as [e|[|]]; simpl; [discriminate| |exact IH].
    intros H. injection H as <-. eauto.
Qed.

Lemma match_major_cycle (nv : string) (vs : list json) (x : json) :
  match_major nv vs = inr (Some x) -> exists o c, x = JObj o /\ obj_get "cycle" o = Some c.
Proof.
  induction vs as [|v vs IH]; simpl; [discriminate|].
  destruct v as [| | | s | l | o]; simpl; try discriminate; try exact IH.
  - destruct (substring_in "cycle" s); simpl; [discriminate | exact IH].
  - destruct (existsb _ l); simpl; [discriminate | exact IH].
  - destruct (obj_get "cycle" o) as [c|] eqn:Hc; simpl; [|exact IH].
    destruct (py_same_major nv c) as [e|[|]]; simpl; [discriminate| |exact IH].
    intros H. injection H as <-. eauto.
Qed.

Lemma match_version_cycle (vs : json) (version : string) (x : json) :
  match_version vs version = inr x ->
  x = JNull \/ exists o c, x = JObj o /\ obj_get "cycle" o = Some c.
Proof.
  unfold match_version. destruct (py_iter vs) as [e|l]; simpl; [discriminate|].
  destruct (match_prefix (normalize_version version) l) as [e|[y|]] eqn:H1; simpl; [discriminate| |].
  - intros H. injection H as <-. right. eapply match_prefix_cycle; eauto.
  - destruct (match_major (normalize_version version) l) as [e|[y|]] eqn:H2; simpl; [discriminate| |].
    + intros H. injection H as <-. right. eapply match_major_cycle; eauto.
    + intros H. injection H as <-. left. reflexivity.
Qed.

Lemma is_product_available_total (env : Env) (p : string) (st : ClientState) :
  exists st' b, is_product_available env p st = (st', inr b).
Proof.
  unfold is_product_available. destruct (cs_memo st !! p); [eauto|].
  destruct (get_with_cache env p st). eauto.
Qed.

(** [get_eol_info] never raises, and returns either [None] or a catalog
    entry that is a dict with a [cycle] key. *)
Theorem get_eol_info_result (env : Env) (package_name version : string) (st : ClientState) :
  exists st' r, get_eol_info env package_name version st = (st', inr r) /\
  (r = JNull \/ exists o c, r = JObj o /\ obj_get "cycle" o = Some c).
Proof.
  unfold get_eol_info, mbind, mcatch, get_product_versions, mret, lift.
  destruct (is_product_available_total env (get_product_name package_name) st) as (st1 & b & ->).
  destruct (negb b); [eauto|].
  destruct (get_with_cache env (get_product_name package_name) st1) as [st2 [e|vs]]; [eauto|].
  destruct (match_version vs version) as [e|x] eqn:Hm; [eauto|].
  exists st2, x. split; [reflexivity|]. eapply match_version_cycle; eauto.
Qed.

(* ------------------------------------------------------------------ *)
(** ** core.py: results of a run, the ignore list, day counts *)

Lemma recommend_breaking (env : Env) (today : date) (dep : Dependency) (eol_info : json)
    (st st' : ClientState) (rv : json) :
  recommend env today dep eol_info st = (st', (rv, true)) ->
  exists rs, rv = JStr rs /\ has_major_version_change (dep_version dep) rs = true.
Proof.
  unfold recommend.
  destruct (String.eqb (get_product_name (dep_name dep)) ""); [discriminate|].
  destruct (get_product_versions env (get_product_name (dep_name dep)) st) as [st1 [e|vs]];
    [discriminate|].
  destruct (let? vs0 := py_iter vs in let? act := active_versions today vs0 in inr act)
    as [e|[|l ls]]; [discriminate| |].
  - destruct (py_dict_get "latest" eol_info); discriminate.
  - destruct (py_dict_get "latest" l) as [e|r]; [discriminate|].
    destruct (truthy r) eqn:Ht; [|discriminate].
    unfold py_has_major_version_change.
    destruct (String.eqb (dep_version dep) "" || negb (truthy r)); [discriminate|].
    destruct r; try discriminate. intros H. injection H as <- <- Hb. eauto.
Qed.

Lemma check_dependency_shape (env : Env) (today : date) (threshold_days : Z)
    (dep : Dependency) (st : ClientState) :
  exists st' r k, check_dependency env today threshold_days dep st = (st', inr (r, k)) /\
  res_dep r = dep /\
  forall d s e days rv b, r = ResChecked d s e days rv b ->
    (s = OK -> rv = JNull /\ b = false) /\
    (b = true -> exists rs, rv = JStr rs /\ has_major_version_change (dep_version dep) rs = true).
Proof.
  unfold check_dependency, mcatch, check_dependency_body, mbind, lift, mret.
  destruct (get_eol_info env (dep_name dep) (dep_version dep) st) as [st1 [e|info]].
  { do 3 eexists. split; [reflexivity|]. split; [reflexivity|]. discriminate. }
  destruct (truthy info).
  2: { do 3 eexists. split; [reflexivity|]. split; [reflexivity|]. discriminate. }
  destruct (py_contains "eol" info) as [e|[|]].
  1,3: do 3 eexists; split; [reflexivity|]; split; [reflexivity|]; discriminate.
  simpl. destruct (py_index "eol" info) as [e|raw].
  { do 3 eexists. split; [reflexivity|]. split; [reflexivity|]. discriminate. }
  destruct (strptime raw) as [e|dt].
  { do 3 eexists. split; [reflexivity|]. split; [reflexivity|]. discriminate. }
  destruct (classify (days_between dt today) threshold_days) as [status key] eqn:Hc.
  destruct status.
  - do 3 eexists. split; [reflexivity|]. split; [reflexivity|].
    intros d s e days rv b H. injection H as <- <- <- <- <- <-. split; [auto|discriminate].
  - destruct (recommend env today dep info st1) as [st2 [rv0 b0]] eqn:Hr.
    do 3 eexists. split; [reflexivity|]. split; [reflexivity|].
    intros d s e days rv b H. injection H as <- <- <- <- <- <-. split; [discriminate|].
    intros ->. eapply recommend_breaking; eauto.
  - destruct (recommend env today dep info st1) as [st2 [rv0 b0]] eqn:Hr.
    do 3 eexists. split; [reflexivity|]. split; [reflexivity|].
    intros d s e days rv b H. injection H as <- <- <- <- <- <-. split; [discriminate|].
    intros ->. eapply recommend_breaking; eauto.
  - do 3 eexists. split; [reflexivity|]. split; [reflexivity|].
    intros d s e days rv b H. injection H as <- <- <- <- <- <-. split; [discriminate|auto].
    intros; discriminate.
  - do 3 eexists. split; [reflexivity|]. split; [reflexivity|].
    intros d s e days rv b H. injection H as <- <- <- <- <- <-. split; [discriminate|auto].
    intros; discriminate.
Qed.

(** [check_dependency] always returns a result for its own dependency; an
    OK result carries no recommended version and no breaking-change flag;
    and the breaking-change flag is only set with a recommended version
    string whose major number differs from the current one. *)
Theorem check_dependency_result_shape (env : Env) (today : date) (threshold_days : Z)
    (dep : Dependency) (st : ClientState) :
  exists st' r k, check_dependency env today threshold_days dep st = (st', inr (r, k)) /\
  res_dep r = dep /\
  forall d s e days rv b, r = ResChecked d s e days rv b ->
    (s = OK -> rv = JNull /\ b = false) /\
    (b = true -> exists rs, rv = JStr rs /\ has_major_version_change (dep_version dep) rs = true).
Proof. apply check_dependency_shape. Qed.

Lemma check_dependency_result_shape_witness :
  exists st' r k,
    check_dependency env_django_32_3 (mkDate 2024 1 1) 90 (mkDep "django" "3.2.1") empty_state =
      (st', inr (r, k)) /\ res_dep r = mkDep "django" "3.2.1".
Proof.
  destruct (check_dependency_result_shape env_django_32_3 (mkDate 2024 1 1) 90
              (mkDep "django" "3.2.1") empty_state) as (st' & r & k & H1 & H2 & _).
  exists st', r, k. split; [exact H1 | exact H2].
Defined.

Lemma check_all_deps (env : Env) (today : date) (threshold_days : Z)
    (deps : list Dependency) (st : ClientState) :
  exists st' rs, check_all env today threshold_days deps st = (st', inr rs) /\
  map (fun r => res_dep (fst r)) rs = deps.
Proof.
  revert st. induction deps as [|d deps IH]; intros st; simpl.
  - exists st, []. split; reflexivity.
  - unfold mbind.
    destruct (check_dependency_shape env today threshold_days d st)
      as (st1 & r & k & -> & Hd & _).
    destruct (IH st1) as (st2 & rs & -> & Hrs).
    exists st2, ((r, k) :: rs). split; [reflexivity|]. simpl. rewrite Hd, Hrs. reflexivity.
Qed.

(** The checking run of [check_project] always completes, whatever order
    [as_completed] yields the futures in; its results are one result per
    non-ignored dependency (up to order); no result belongs to an ignored
    name; and the summary counters add up to the number of results. *)
Theorem check_project_results_cover
    (as_completed : list (Resolution * SummaryKey) -> list (Resolution * SummaryKey))
    (env : Env) (today : date) (threshold_days : Z)
    (ignore_list : list string) (all_dependencies : list Dependency) (st : ClientState) :
  (forall l, Permutation (as_completed l) l) ->
  exists st' rs s,
    check_project_results as_completed env today threshold_days ignore_list all_dependencies st =
      (st', inr (rs, s)) /\
    Permutation (map res_dep rs) (filter_ignored ignore_list all_dependencies) /\
    Forall (fun r => ~ In (dep_name (res_dep r)) ignore_list) rs /\
    summary_total s = List.length rs.
Proof.
  intros Hperm. unfold check_project_results, mbind, mret.
  destruct (check_all_deps env today threshold_days (filter_ignored ignore_list all_dependencies) st)
    as (st1 & rs & -> & Hrs).
  exists st1, (map fst (as_completed rs)), (summarize (as_completed rs)).
  assert (Hp : Permutation (map res_dep (map fst (as_completed rs)))
                           (filter_ignored ignore_list all_dependencies)).
  { rewrite <- Hrs, !map_map. apply Permutation_map. apply Hperm. }
  split; [reflexivity|]. split; [exact Hp|]. split.
  - apply Forall_forall. intros r Hr Hin. apply list_elem_of_In in Hr.
    assert (Hf : In (res_dep r) (filter_ignored ignore_list all_dependencies)).
    { apply (Permutation_in _ Hp). apply in_map. exact Hr. }
    unfold filter_ignored in Hf. apply filter_In in Hf as [_ Hf].
    apply negb_true_iff in Hf. apply Bool.not_true_iff_false in Hf. apply Hf.
    apply existsb_exists. exists (dep_name (res_dep r)). split; [exact Hin | apply String.eqb_refl].
  - unfold summarize. rewrite fold_bump_total, length_map. reflexivity.
Qed.

(** Futures that are already done come out in reverse submission order. *)
Lemma check_project_results_cover_witness :
  (forall l : list (Resolution * SummaryKey), Permutation (List.rev l) l) /\
  exists st' rs s,
    check_project_results (@List.rev _) env_django_32_3 (mkDate 2024 1 1) 90 ["react"]
      [mkDep "django" "3.2.1"; mkDep "react" "17.0.2"; mkDep "python" "3.12.1"] empty_state =
      (st', inr (rs, s)) /\
    Permutation (map res_dep rs) [mkDep "django" "3.2.1"; mkDep "python" "3.12.1"] /\
    Forall (fun r => ~ In (dep_name (res_dep r)) ["react"]) rs /\
    summary_total s = List.length rs.
Proof.
  assert (H : forall l : list (Resolution * SummaryKey), Permutation (List.rev l) l)
    by (intros l; symmetry; apply Permutation_rev).
  split; [exact H|].
  exact (check_project_results_cover (@List.rev _) env_django_32_3 (mkDate 2024 1 1) 90 ["react"]
           [mkDep "django" "3.2.1"; mkDep "react" "17.0.2"; mkDep "python" "3.12.1"] empty_state H).
Defined.

Lemma py_rstrip_idem (s : string) : py_rstrip (py_rstrip s) = py_rstrip s.
Proof.
  induction s as [|c s IH]; [reflexivity|]. simpl.
  destruct (py_isspace c && String.eqb (py_rstrip s) "") eqn:E; [reflexivity|].
  simpl. rewrite IH, E. reflexivity.
Qed.

Lemma py_lstrip_head (s : string) :
  match py_lstrip s with String c _ => py_isspace c = false | EmptyString => True end.
Proof.
  induction s as [|c s IH]; simpl; [exact I|].
  destruct (py_isspace c) eqn:E; [exact IH | exact E].
Qed.

Lemma py_lstrip_rstrip (s : string) :
  match s with String c _ => py_isspace c = false | EmptyString => True end ->
  py_lstrip (py_rstrip s) = py_rstrip s.
Proof.
  destruct s as [|c s]; intros H; [reflexivity|]. simpl. rewrite H. simpl. rewrite H. reflexivity.
Qed.

Lemma py_strip_idem (s : string) : py_strip (py_strip s) = py_strip s.
Proof.
  unfold py_strip. rewrite py_lstrip_rstrip by apply py_lstrip_head. apply py_rstrip_idem.
Qed.

(** Every entry of the ignore list is non-empty and has no surrounding
    whitespace. *)
Theorem ignore_entries_stripped (ignore_file : option (list string)) :
  Forall (fun e => e <> "" /\ py_strip e = e) (load_ignore_list ignore_file).
Proof.
  destruct ignore_file as [f|]; simpl; [|constructor].
  apply Forall_forall. intros e He. apply list_elem_of_In in He.
  apply in_map_iff in He as (line & <- & Hin).
  apply filter_In in Hin as [_ Hk]. apply andb_true_iff in Hk as [Hk _].
  split; [|apply py_strip_idem].
  intros Hs. rewrite Hs in Hk. discriminate.
Qed.

Lemma ignore_entries_stripped_witness :
  load_ignore_list (Some ["django" ++ String "010" ""; "# comment"; "  # indented"; " "]) =
    ["django"; "# indented"] /\
  Forall (fun e => e <> "" /\ py_strip e = e)
         (load_ignore_list (Some ["django" ++ String "010" ""; "# comment"; "  # indented"; " "])).
Proof.
  split; [reflexivity|]. apply ignore_entries_stripped.
Defined.

Lemma div_step (y k : Z) : 0 < k -> y / k - (y - 1) / k = if Z.eqb (y mod k) 0 then 1 else 0.
Proof.
  intros Hk.
  pose proof (Z.div_mod y k ltac:(lia)) as H1.
  pose proof (Z.mod_pos_bound y k Hk) as H2.
  pose proof (Z.div_mod (y - 1) k ltac:(lia)) as H3.
  pose proof (Z.mod_pos_bound (y - 1) k Hk) as H4.
  destruct (Z.eqb_spec (y mod k) 0) as [E|E].
  - assert (Hq : (y - 1) / k = y / k - 1) by nia. lia.
  - assert (Hq : (y - 1) / k = y / k) by nia. lia.
Qed.

(** Day counts are calendar days: the ordinal grows by one from each day
    to the next, within a month, across the end of a month (leap February
    included) and across the end of a year. *)
Theorem toordinal_consecutive_days (y m d : Z) :
  toordinal (mkDate y m (d + 1)) = toordinal (mkDate y m d) + 1 /\
  (1 <= m < 12 -> toordinal (mkDate y (m + 1) 1) = toordinal (mkDate y m (days_in_month y m)) + 1) /\
  toordinal (mkDate (y + 1) 1 1) = toordinal (mkDate y 12 31) + 1.
Proof.
  split; [unfold toordinal; simpl; lia|]. split.
  - intros Hm. unfold toordinal, days_before_month, days_in_month. simpl.
    assert (m = 1 \/ m = 2 \/ m = 3 \/ m = 4 \/ m = 5 \/ m = 6 \/ m = 7 \/ m = 8 \/ m = 9 \/
            m = 10 \/ m = 11) as Hc by lia.
    destruct (is_leap y);
      repeat destruct Hc as [-> | Hc]; subst; simpl; lia.
  - unfold toordinal, days_before_month, days_before_year. simpl.
    replace (y + 1 - 1) with y by lia.
    pose proof (div_step y 4 ltac:(lia)) as H4.
    pose proof (div_step y 100 ltac:(lia)) as H100.
    pose proof (div_step y 400 ltac:(lia)) as H400.
    assert (A1 : y mod 400 = 0 -> y mod 100 = 0).
    { intros H. apply Z.mod_divide in H; [|lia]. apply Z.mod_divide; [lia|].
      eapply Z.divide_trans; [exists 4; reflexivity | exact H]. }
    assert (A2 : y mod 100 = 0 -> y mod 4 = 0).
    { intros H. apply Z.mod_divide in H; [|lia]. apply Z.mod_divide; [lia|].
      eapply Z.divide_trans; [exists 25; reflexivity | exact H]. }
    unfold is_leap.
    destruct (Z.eqb_spec (y mod 400) 0) as [E400|E400];
    destruct (Z.eqb_spec (y mod 100) 0) as [E100|E100];
    destruct (Z.eqb_spec (y mod 4) 0) as [E4|E4]; simpl; try lia.
    all: exfalso; auto.
Qed.

Lemma toordinal_consecutive_days_witness :
  1 <= 2 < 12 /\
  toordinal (mkDate 2024 (2 + 1) 1) = toordinal (mkDate 2024 2 (days_in_month 2024 2)) + 1.
Proof.
  split; [lia|]. apply (proj1 (proj2 (toordinal_consecutive_days 2024 2 1))). lia.
Defined.

(* ------------------------------------------------------------------ *)
(** ** Claim C3: every digit run is kept *)

Lemma findall_digits_layout (n : nat) (t : string) :
  (String.length t <= n)%nat ->
  exists g0 rgs, spec_digit_runs_layout t g0 rgs /\
    findall_digits t = map (fun rg => list_ascii_of_string (fst rg)) rgs.
Proof.
  revert t; induction n as [|n IH]; intros t Hlen.
  - destruct t; [|simpl in Hlen; lia].
    exists "", []. split; [|reflexivity]. repeat split; constructor.
  - destruct t as [|c t'].
    + exists "", []. split; [|reflexivity]. repeat split; constructor.
    + destruct (is_digit c) eqn:Hc.
      * pose proof (span_digits_app (String c t')) as Happ.
        pose proof (span_digits_all (String c t')) as Hall.
        pose proof (span_digits_stop (String c t')) as Hstop.
        destruct (span_digits (String c t')) as [d r] eqn:Hsp. simpl in Happ, Hall, Hstop.
        assert (Hd : d <> "").
        { intros ->. simpl in Hsp. rewrite Hc in Hsp. destruct (span_digits t'); discriminate. }
        assert (Hdall : spec_all_digits d = true).
        { unfold spec_all_digits. apply forallb_forall. intros x Hx.
          rewrite Forall_forall in Hall. apply Hall. apply list_elem_of_In. exact Hx. }
        destruct r as [|c' r'].
        -- exists "", [(d, "")]. split.
           ++ split; [rewrite <- Happ; reflexivity|].
              split; [reflexivity|]. split; [constructor; [split; [exact Hd | split; [exact Hdall | reflexivity]] | constructor]|].
              constructor.
           ++ rewrite <- Happ, str_app_nil_r. unfold findall_digits.
              rewrite (digit_runs_aux_digits d [] Hall). simpl.
              destruct d; [congruence | reflexivity].
        -- assert (Hl : (String.length r' <= n)%nat).
           { rewrite <- Happ, str_length_app in Hlen. simpl in Hlen.
             destruct d; [congruence|]. simpl in Hlen. lia. }
           destruct (IH r' Hl) as (g0 & rgs & (Ht & Hg0 & Hf & Hrl) & Hfa).
           exists "", ((d, String c' g0) :: rgs). split.
           ++ split.
              ** rewrite <- Happ, Ht. simpl.
                 destruct (map _ rgs); [by rewrite str_app_nil_r | rewrite <- str_app_assoc; reflexivity].
              ** split; [reflexivity|]. split.
                 --- constructor; [|exact Hf]. split; [exact Hd|]. split; [exact Hdall|].
                     unfold spec_no_digit in *. simpl. rewrite Hstop. exact Hg0.
                 --- destruct rgs as [|rg rgs]; simpl; [constructor|].
                     constructor; [discriminate | exact Hrl].
           ++ rewrite <- Happ. unfold findall_digits.
              rewrite (digit_runs_aux_sep _ _ _ _ Hstop).
              rewrite (digit_runs_aux_digits d [] Hall). unfold findall_digits in Hfa. rewrite Hfa.
              simpl. destruct d; [congruence | reflexivity].
      * assert (Hl : (String.length t' <= n)%nat) by (simpl in Hlen; lia).
        destruct (IH t' Hl) as (g0 & rgs & (Ht & Hg0 & Hf & Hrl) & Hfa).
        exists (String c g0), rgs. split.
        -- split; [rewrite Ht; reflexivity|]. split; [|split; assumption].
           unfold spec_no_digit in *. simpl. rewrite Hc. exact Hg0.
        -- unfold findall_digits in *. simpl. rewrite Hc. exact Hfa.
Qed.

Lemma all_digits_uint (r : string) :
  spec_all_digits r = true -> exists u, NilEmpty.uint_of_string r = Some u.
Proof.
  induction r as [|c r IH]; [eauto|]. unfold spec_all_digits. simpl.
  intros H. apply andb_true_iff in H as [Hc Hr]. destruct (IH Hr) as [u Hu].
  rewrite Hu. destruct c as [[] [] [] [] [] [] [] []]; try discriminate; eexists; reflexivity.
Qed.

Lemma decimal_run (r : string) :
  spec_all_digits r = true ->
  str_of_N (int_of_digits (list_ascii_of_string r)) = spec_decimal r.
Proof.
  intros H. destruct (all_digits_uint r H) as [u Hu]. unfold spec_decimal. rewrite Hu.
  apply NilEmpty.sus in Hu. rewrite <- Hu, string_of_uint_val. unfold str_of_N.
  rewrite DecimalN.Unsigned.to_of. reflexivity.
Qed.

(** Claim C3 (amended): [normalize_version] drops one leading [v] and
    keeps every maximal run of digits of the rest, in order, each read as
    a decimal integer and printed without leading zeros, joined by dots:
    a non-digit character only separates runs, it never ends the version.
    Hence ["v2.7.16rc1"] becomes ["2.7.16.1"]. *)
Theorem normalize_version_all_digit_runs :
  normalize_version "v2.7.16rc1" = "2.7.16.1" /\
  normalize_version "v007.10" = "7.10" /\
  (forall s : string, exists g0 rgs,
     spec_digit_runs_layout (spec_strip_v s) g0 rgs /\
     normalize_version s = String.concat "." (map (fun rg => spec_decimal (fst rg)) rgs)).
Proof.
  split; [reflexivity|]. split; [reflexivity|].
  intros s.
  destruct (findall_digits_layout (String.length (spec_strip_v s)) (spec_strip_v s) (le_n _))
    as (g0 & rgs & Hl & Hfa).
  exists g0, rgs. split; [exact Hl|].
  assert (Hv : strip_leading_v s = spec_strip_v s) by reflexivity.
  unfold normalize_version, parse_version. rewrite Hv, Hfa, !map_map.
  f_equal. apply map_ext_in. intros rg Hin.
  destruct Hl as (_ & _ & Hf & _). rewrite Forall_forall in Hf.
  apply decimal_run. apply Hf. apply list_elem_of_In. exact Hin.
Qed.
